(** * solana_tps: the aggregation pipeline of [tps.py]

    [tps.py] fetches a per-minute table of transaction counts, adds
    per-second rates and rolling means to it ([load_data]), and then
    reports summary statistics, a daily resampled table and two rank
    correlations.

    The script is a sequence of pandas, numpy and scipy calls.  Each call is
    modelled by a function with the behaviour the library has for the
    arguments the script passes (defaults included: [min_periods] of a fixed
    window, [skipna], [ddof], [nan_policy]); the script itself is modelled
    statement by statement on top of them.

    Numbers.  In the model of the whole script a pandas float cell is
    [option Qc]: [None] is NaN, [Some q] an exact rational, and every
    arithmetic operation is the exact one; square roots ([np.sqrt], the one
    inside [Series.std]) are taken in [R].  That model carries what the
    script does with rows, windows, days and undefined values; it says
    nothing about the last bit of a result.  Where a property is about
    exactness, the division by 60 of lines 15-16, the cells are the
    machine's: the section on binary64 models those two lines over
    [PrimFloat.float] with IEEE-754 division. *)

From Stdlib Require Import QArith Qabs Qcanon Reals Qreals Lia Lra.
From Stdlib Require PrimFloat FloatOps Uint63 SpecFloat.
From stdpp Require Import base option list numbers strings gmap.

Local Open Scope Qc_scope.

(** ** Float cells *)

Abbreviation Float := (option Qc).

Abbreviation NaN := (@None Qc).

Definition Qc_of_nat (n : nat) : Qc := Qc_of_Z (Z.of_nat n).

(** IEEE-style arithmetic on cells: NaN is absorbing. *)
Definition fadd (a b : Float) : Float :=
  match a, b with
  | Some x, Some y => Some (x + y)
  | _, _ => NaN
  end.

(** [x / d] for a non-zero constant divisor [d]. *)
Definition fdiv_const (a : Float) (d : Qc) : Float :=
  match a with
  | Some x => Some (x / d)
  | None => NaN
  end.

(** The plain arithmetic mean [sum(l) / len(l)] computed cell by cell: a NaN
    anywhere in [l] makes the sum, hence the mean, NaN.  The empty mean is
    0/0 = NaN. *)
Definition fsum (l : list Float) : Float := foldr fadd (Some 0) l.

Definition amean (l : list Float) : Float :=
  match l with
  | [] => NaN
  | _ => fdiv_const (fsum l) (Qc_of_nat (length l))
  end.

(** ** pandas primitives used by the script *)

(** The defined observations of a series ([dropna]). *)
Fixpoint dropna (l : list Float) : list Qc :=
  match l with
  | [] => []
  | Some x :: l' => x :: dropna l'
  | None :: l' => dropna l'
  end.

Definition Qcsum (l : list Qc) : Qc := foldr Qcplus 0 l.

(** [Series.rolling(w)]: the window ending at row [i] is the trailing run of
    at most [w] rows, positions [max 0 (i-w+1) .. i]. *)
Definition window (w i : nat) (xs : list Float) : list Float :=
  take (S i - (S i - w)) (drop (S i - w) xs).

(** [.mean()] on one window with [min_periods = minp]: the mean of the
    non-NaN observations when there are at least [minp] (and at least one)
    of them, NaN otherwise. *)
Definition roll_mean_at (minp : nat) (win : list Float) : Float :=
  let obs := dropna win in
  if bool_decide (minp ≤ length obs)%nat && bool_decide (0 < length obs)%nat
  then Some (Qcsum obs / Qc_of_nat (length obs))
  else NaN.

(** [s.rolling(w).mean()]; for a fixed-size window [min_periods] defaults to
    the window size. *)
Definition rolling_mean (w : nat) (xs : list Float) : list Float :=
  map (λ i, roll_mean_at w (window w i xs)) (seq 0 (length xs)).

(** ** Exceptions and fallible computations *)

Inductive Exn : Type :=
  | FetchError                (* pd.read_json: network or parse failure *)
  | KeyError (k : string)     (* df[k] on a missing column *)
  | AttributeError (k : string) (* df.k on a missing column *)
  | TypeError                 (* arithmetic on a non-numeric column *)
  | DataError                 (* pandas: no numeric types to aggregate *)
  | ValueError                (* length mismatch *)
  | NameError (x : string).   (* unbound script variable *)

Inductive result (A : Type) : Type :=
  | Ok (a : A)
  | Raise (e : Exn).
Arguments Ok {A} a.
Arguments Raise {A} e.

Global Instance result_ret : MRet result := λ A a, Ok a.
Global Instance result_bind : MBind result := λ A B f m,
  match m with
  | Ok a => f a
  | Raise e => Raise e
  end.

(** A [for] loop whose body rebinds the frame and may raise. *)
Fixpoint for_each {A S : Type} (l : list A) (body : S → A → result S) (s : S)
  : result S :=
  match l with
  | [] => Ok s
  | a :: l' => s' ← body s a; for_each l' body s'
  end.

(** ** Data frames *)

(** A column is numeric (floats, NaN allowed) or holds timestamps, in seconds
    since the epoch. *)
Inductive Column : Type :=
  | NumCol (xs : list Float)
  | TimeCol (ts : list Z).

Definition col_length (c : Column) : nat :=
  match c with
  | NumCol xs => length xs
  | TimeCol ts => length ts
  end.

(** A frame: its row index (a [RangeIndex] for the fetched table, the day
    starts for the resampled one) and its named columns. *)
Record DataFrame : Type := mkFrame {
  index : Column;
  columns : gmap string Column;
}.

(** [len(df)] *)
Definition len (df : DataFrame) : nat := col_length (index df).

(** [df[k]] *)
Definition getitem (df : DataFrame) (k : string) : result Column :=
  match columns df !! k with
  | Some c => Ok c
  | None => Raise (KeyError k)
  end.

(** [df.k], attribute access to a column. *)
Definition getattr (df : DataFrame) (k : string) : result Column :=
  match columns df !! k with
  | Some c => Ok c
  | None => Raise (AttributeError k)
  end.

(** [df[k] = c], for a series [c] carrying [df]'s own index. *)
Definition setitem (df : DataFrame) (k : string) (c : Column) : DataFrame :=
  mkFrame (index df) (<[k := c]> (columns df)).

(** [s / d] *)
Definition truediv (c : Column) (d : Qc) : result Column :=
  match c with
  | NumCol xs => Ok (NumCol (map (λ x, fdiv_const x d) xs))
  | TimeCol _ => Raise TypeError
  end.

(** [s.rolling(w).mean()]; a column without numbers has nothing to
    aggregate, which pandas reports as its own [DataError]. *)
Definition rolling_mean_col (w : nat) (c : Column) : result Column :=
  match c with
  | NumCol xs => Ok (NumCol (rolling_mean w xs))
  | TimeCol _ => Raise DataError
  end.

(** ** [load_data] *)

Definition sixty : Qc := Qc_of_Z 60.

Definition rate_columns : list string := ["TX_COUNT"; "SUCCESS"; "FAILS"].

Definition tracked_columns : list string :=
  ["TX_COUNT_per_second"; "SUCCESS_per_second"; "SUCCESS_RATE";
   "FAILS_per_second"].

(** Body of the first loop: [df[f"{i}_per_second"] = df[i] / 60]. *)
Definition per_second_body (df : DataFrame) (i : string) : result DataFrame :=
  s ← getitem df i;
  r ← truediv s sixty;
  Ok (setitem df (i +:+ "_per_second") r).

(** One line of the second loop: [df[f"{i}{suffix}"] = df[i].rolling(w).mean()]. *)
Definition rolling_line (suffix : string) (w : nat) (i : string)
    (df : DataFrame) : result DataFrame :=
  s ← getitem df i;
  r ← rolling_mean_col w s;
  Ok (setitem df (i +:+ suffix) r).

Definition rolling_body (df : DataFrame) (i : string) : result DataFrame :=
  df ← rolling_line "_5_min_avg" 5 i df;
  df ← rolling_line "_hourly_avg" 60 i df;
  df ← rolling_line "_6_hr_avg" (60 * 6) i df;
  df ← rolling_line "_daily_avg" (60 * 24) i df;
  rolling_line "_weekly_avg" (60 * 24 * 7) i df.

(** Lines 14-28 of [load_data]: the two loops over the fetched frame. *)
Definition create_averages (df : DataFrame) : result DataFrame :=
  df ← for_each rate_columns per_second_body df;
  for_each tracked_columns rolling_body df.

(** ** Series statistics *)

Abbreviation FloatR := (option R).

Definition to_R (x : Float) : FloatR := (λ q : Qc, Q2R q) <$> x.

(** [Series.mean()] ([skipna=True]): mean of the defined observations. *)
Definition series_mean (xs : list Float) : Float :=
  match dropna xs with
  | [] => NaN
  | obs => Some (Qcsum obs / Qc_of_nat (length obs))
  end.

(** Sample variance behind [Series.std()] ([skipna=True], [ddof=1]). *)
Definition series_var (xs : list Float) : Float :=
  let obs := dropna xs in
  let n := length obs in
  if bool_decide (n ≤ 1)%nat then NaN
  else
    let m := Qcsum obs / Qc_of_nat n in
    Some (Qcsum (map (λ x, (x - m) * (x - m)) obs) / Qc_of_nat (n - 1)).

(** [Series.std()] *)
Definition series_std (xs : list Float) : FloatR :=
  (λ v : Qc, sqrt (Q2R v)) <$> series_var xs.

(** [np.sqrt(n)] for a row count [n]. *)
Definition np_sqrt (n : nat) : R := sqrt (INR n).

(** [Series.min()] and [Series.max()] ([skipna=True]). *)
Definition Qc_min (x y : Qc) : Qc := if decide (x ≤ y) then x else y.
Definition Qc_max (x y : Qc) : Qc := if decide (x ≤ y) then y else x.

Definition series_min (xs : list Float) : Float :=
  match dropna xs with
  | [] => NaN
  | x :: obs => Some (foldr Qc_min x obs)
  end.

Definition series_max (xs : list Float) : Float :=
  match dropna xs with
  | [] => NaN
  | x :: obs => Some (foldr Qc_max x obs)
  end.

(** A column used as a numeric series. *)
Definition numeric (c : Column) : result (list Float) :=
  match c with
  | NumCol xs => Ok xs
  | TimeCol _ => Raise TypeError
  end.

Definition scale (k : R) (x : FloatR) : FloatR := (λ r, r * k)%R <$> x.

(** [df[k].mean()] and [df[k].std() / np.sqrt(len(df))], the pair the
    narrative prints as "mean ± error".  The script also reaches columns as
    attributes ([df.SUCCESS_RATE]); that is read as [df["SUCCESS_RATE"]], the
    two differing only in the exception for a missing column. *)
Definition summary_mean (df : DataFrame) (k : string) : result Float :=
  xs ← getitem df k ≫= numeric; Ok (series_mean xs).

Definition summary_sem (df : DataFrame) (k : string) : result FloatR :=
  xs ← getitem df k ≫= numeric;
  Ok ((λ s, s / np_sqrt (len df))%R <$> series_std xs).

(** ** Frame operations of the script body *)

(** [df[[k1; ...; kn]]]: a new frame with the listed columns. *)
Fixpoint select_columns (df : DataFrame) (ks : list string)
  : result (gmap string Column) :=
  match ks with
  | [] => Ok ∅
  | k :: ks' =>
      c ← getitem df k;
      m ← select_columns df ks';
      Ok (<[k := c]> m)
  end.

Definition select (df : DataFrame) (ks : list string) : result DataFrame :=
  m ← select_columns df ks; Ok (mkFrame (index df) m).

(** [df.rename(columns=mapping)]: a new frame. *)
Fixpoint rename_key (mapping : list (string * string)) (k : string) : string :=
  match mapping with
  | [] => k
  | (old, new) :: mapping' =>
      if decide (k = old) then new else rename_key mapping' k
  end.

Definition rename (mapping : list (string * string)) (df : DataFrame)
  : DataFrame :=
  mkFrame (index df)
    (list_to_map ((λ kc, (rename_key mapping kc.1, kc.2)) <$>
                  map_to_list (columns df))).

(** [frame.index = series]: the new index must have one label per row. *)
Definition set_index (df : DataFrame) (c : Column) : result DataFrame :=
  if decide (col_length c = len df) then Ok (mkFrame c (columns df))
  else Raise ValueError.

(** ** Daily resampling *)

Definition seconds_per_day : Z := 86400.

Definition day_of (t : Z) : Z := (t `div` seconds_per_day)%Z.

(** The bins of [resample("D")]: every calendar day from the first to the
    last day with a record, days without records included. *)
Definition days (ts : list Z) : list Z :=
  match ts with
  | [] => []
  | t :: ts' =>
      let lo := foldr Z.min (day_of t) (day_of <$> ts') in
      let hi := foldr Z.max (day_of t) (day_of <$> ts') in
      seqZ lo (hi - lo + 1)
  end.

(** The values of the rows whose timestamp falls on day [d]. *)
Fixpoint rows_of_day (d : Z) (ts : list Z) (xs : list Float) : list Float :=
  match ts, xs with
  | t :: ts', x :: xs' =>
      if decide (day_of t = d) then x :: rows_of_day d ts' xs'
      else rows_of_day d ts' xs'
  | _, _ => []
  end.

(** Per-day [mean()] of one numeric column; a day without a defined value
    gets NaN. *)
Definition resample_mean_col (ts : list Z) (xs : list Float) : list Float :=
  (λ d, series_mean (rows_of_day d ts xs)) <$> days ts.

(** [df.resample("D", on=k).mean()]: indexed by day start, one mean column
    per numeric column of [df].  A frame without rows, on which pandas
    raises, gets the empty table here. *)
Definition resample_mean (df : DataFrame) (k : string) : result DataFrame :=
  c ← getitem df k;
  match c with
  | TimeCol ts =>
      Ok (mkFrame (TimeCol ((λ d, d * seconds_per_day)%Z <$> days ts))
            (omap (λ c, match c with
                        | NumCol xs => Some (NumCol (resample_mean_col ts xs))
                        | TimeCol _ => None
                        end) (delete k (columns df))))
  | NumCol _ => Raise TypeError
  end.

Definition daily_columns : list string :=
  ["TX_COUNT_per_second"; "SUCCESS_per_second"; "SUCCESS_RATE"].

Definition daily_names : list (string * string) :=
  [("TX_COUNT_per_second", "Mean TPS");
   ("SUCCESS_RATE", "Mean Success Rate");
   ("SUCCESS_per_second", "Mean Successful TPS")].

(** Lines 100-111: the table [mean_daily]. *)
Definition mean_daily (df : DataFrame) : result DataFrame :=
  daily ← resample_mean df "DATETIME";
  md ← select daily daily_columns;
  let md := setitem md "date" (index md) in
  Ok (rename daily_names md).

(** ** Rank correlation *)

Definition has_nan (xs : list Float) : bool :=
  bool_decide (length (dropna xs) ≠ length xs).

(** Number of rows where both samples are defined. *)
Fixpoint valid_pairs (xs ys : list Float) : nat :=
  match xs, ys with
  | Some _ :: xs', Some _ :: ys' => S (valid_pairs xs' ys')
  | _ :: xs', _ :: ys' => valid_pairs xs' ys'
  | _, _ => 0
  end.

Section Script.

(** The numeric kernel of [scipy.stats.spearmanr] (rank transform, Pearson
    coefficient of the ranks, two-sided p-value from Student's t) for two
    complete samples of the same length, at least 2.  It is not part of the
    repository; only the guards in front of it are modelled. *)
Variable rank_corr : list Qc → list Qc → FloatR * FloatR.

(** [spearmanr(a, b)] with its defaults ([nan_policy="propagate"]): stacking
    samples of different lengths raises; at most one observation, or a NaN in
    either sample, gives [(nan, nan)]. *)
Definition spearmanr (a b : Column) : result (FloatR * FloatR) :=
  xs ← numeric a;
  ys ← numeric b;
  if decide (length xs ≠ length ys) then Raise ValueError
  else if decide (length xs ≤ 1)%nat then Ok (None, None)
  else if has_nan xs || has_nan ys then Ok (None, None)
  else Ok (rank_corr (dropna xs) (dropna ys)).

(** Lines 113-114. *)
Definition correlations (md : DataFrame)
  : result ((FloatR * FloatR) * (FloatR * FloatR)) :=
  tps ← getitem md "Mean TPS";
  suc ← getitem md "Mean Successful TPS";
  t ← spearmanr tps suc;
  tps ← getitem md "Mean TPS";
  rate ← getitem md "Mean Success Rate";
  r ← spearmanr tps rate;
  Ok (t, r).

(** ** The session: network, screen and script variables *)

Inductive Widget : Type :=
  | Title (s : string)
  | Caption
  | Subheader (s : string)
  | Text (vals : list FloatR)   (* narrative with interpolated numbers *)
  | LineChart (d : DataFrame)
  | AltairChart (d : DataFrame)
  | Table (d : DataFrame).

Record Session : Type := mkSession {
  network : result DataFrame;        (* what the query URL answers *)
  fetches : nat;                     (* requests sent so far *)
  screen : list Widget;              (* widgets rendered so far, in order *)
  frames : gmap string DataFrame;    (* the script's frame variables *)
}.

Definition App (A : Type) : Type := Session → result A * Session.

Global Instance app_ret : MRet App := λ A a s, (Ok a, s).
Global Instance app_bind : MBind App := λ A B f m s,
  match m s with
  | (Ok a, s') => f a s'
  | (Raise e, s') => (Raise e, s')
  end.

Definition lift {A : Type} (r : result A) : App A := λ s, (r, s).

(** [pd.read_json(url)]: one request; a failure is raised. *)
Definition pd_read_json : App DataFrame := λ s,
  (network s, mkSession (network s) (S (fetches s)) (screen s) (frames s)).

(** Any [st.*] call, and a bare string at top level. *)
Definition st (w : Widget) : App unit := λ s,
  (Ok (), mkSession (network s) (fetches s) (screen s ++ [w]) (frames s)).

Definition assign (x : string) (d : DataFrame) : App unit := λ s,
  (Ok (), mkSession (network s) (fetches s) (screen s) (<[x := d]> (frames s))).

Definition var (x : string) : App DataFrame := λ s,
  (match frames s !! x with
   | Some d => Ok d
   | None => Raise (NameError x)
   end, s).

(** The body of [load_data] (lines 9-29): fetch, then the two loops.  This
    is what a call does when the cache of its decorator holds nothing for
    it; the decorator itself is [st_cache] below. *)
Definition load_data : App DataFrame :=
  df ← pd_read_json;
  lift (create_averages df).

(** [@st.cache] (line 8).  [load_data] takes no argument, so the cache of
    the server process holds at most one entry for it: the frame an earlier
    call returned.  A call that finds the entry returns it without running
    the body; a call that finds none runs the body and stores what it
    returns; a body that raises stores nothing. *)
Definition Cache : Type := option DataFrame.

Definition st_cache (body : App DataFrame) (cache : Cache)
  : Session → (result DataFrame * Session) * Cache := λ s,
  match cache with
  | Some d => ((Ok d, s), Some d)
  | None =>
      match body s with
      | (Ok d, s') => ((Ok d, s'), Some d)
      | (Raise e, s') => ((Raise e, s'), None)
      end
  end.

(** Lines 44-51. *)
Definition average_tps (df : DataFrame) : result (list FloatR) :=
  m1 ← summary_mean df "TX_COUNT_per_second";
  e1 ← summary_sem df "TX_COUNT_per_second";
  m2 ← summary_mean df "SUCCESS_per_second";
  e2 ← summary_sem df "SUCCESS_per_second";
  m3 ← summary_mean df "SUCCESS_RATE";
  e3 ← summary_sem df "SUCCESS_RATE";
  Ok [to_R m1; e1; to_R m2; e2; scale 100 (to_R m3); scale 100 e3].

(** Lines 73-78. *)
Definition success_range (df : DataFrame) : result (list FloatR) :=
  rate ← getitem df "SUCCESS_RATE" ≫= numeric;
  rate' ← getitem df "SUCCESS_RATE" ≫= numeric;
  hourly ← getitem df "SUCCESS_RATE_hourly_avg" ≫= numeric;
  Ok [scale 100 (to_R (series_min rate)); scale 100 (to_R (series_max rate'));
      scale 100 (to_R (series_min hourly))].

(** Lines 116-127. *)
Definition daily_text (md : DataFrame)
    (c : (FloatR * FloatR) * (FloatR * FloatR)) : result (list FloatR) :=
  m ← summary_mean md "Mean Success Rate";
  e ← summary_sem md "Mean Success Rate";
  t ← summary_mean md "Mean TPS";
  Ok [scale 100 (to_R m); scale 100 e; to_R t;
      c.1.1; c.1.2; c.2.1; c.2.2].

Definition tps_chart_columns : list string :=
  ["TX_COUNT_per_second_hourly_avg"; "TX_COUNT_per_second_daily_avg";
   "SUCCESS_per_second_hourly_avg"; "SUCCESS_per_second_daily_avg"].

Definition tps_chart_names : list (string * string) :=
  [("TX_COUNT_per_second_hourly_avg", "Hourly Average, TPS");
   ("TX_COUNT_per_second_daily_avg", "Daily Average, TPS");
   ("SUCCESS_per_second_hourly_avg", "Hourly Average, Successful TPS");
   ("SUCCESS_per_second_daily_avg", "Daily Average, Successful TPS")].

Definition rate_chart_columns : list string :=
  ["SUCCESS_RATE"; "SUCCESS_RATE_hourly_avg"; "SUCCESS_RATE_daily_avg"].

Definition rate_chart_names : list (string * string) :=
  [("SUCCESS_RATE", "Success Rate");
   ("SUCCESS_RATE_hourly_avg", "Hourly Average, Success Rate");
   ("SUCCESS_RATE_daily_avg", "Daily Average, Success Rate")].

(** The chart idiom used twice (lines 54-71 and 80-95): select, rename,
    re-index by [df.DATETIME], draw. *)
Definition line_chart (cols : list string) (names : list (string * string))
  : App unit :=
  df ← var "df";
  cd ← lift (select df cols);
  assign "chart_data" cd;;
  cd ← var "chart_data";
  assign "chart_data" (rename names cd);;
  df ← var "df";
  dt ← lift (getattr df "DATETIME");
  cd ← var "chart_data";
  cd ← lift (set_index cd dt);
  assign "chart_data" cd;;
  cd ← var "chart_data";
  st (LineChart cd).

(** Lines 34-177: everything after [df = load_data()]. *)
Definition page : App unit :=
  st (Title "Solana TPS");;
  st Caption;;
  st (Subheader "Average TPS");;
  df ← var "df";
  vals ← lift (average_tps df);
  st (Text vals);;
  line_chart tps_chart_columns tps_chart_names;;
  df ← var "df";
  vals ← lift (success_range df);
  st (Text vals);;
  line_chart rate_chart_columns rate_chart_names;;
  st (Subheader "Daily TPS");;
  df ← var "df";
  md ← lift (mean_daily df);
  assign "mean_daily" md;;
  md ← var "mean_daily";
  c ← lift (correlations md);
  md ← var "mean_daily";
  vals ← lift (daily_text md c);
  st (Text vals);;
  md ← var "mean_daily";
  st (AltairChart md);;
  st (Subheader "Methods");;
  st (Text []);;
  df ← var "df";
  st (Table df).

(** The script, top to bottom, in a server process whose cache holds
    nothing for [load_data]: the first run, and any run after failed
    loads. *)
Definition main : App unit :=
  df ← load_data;
  assign "df" df;;
  page.

(** A fresh session against a server that answers [net]. *)
Definition boot (net : result DataFrame) : Session := mkSession net 0 [] ∅.

(** One run of the script, top to bottom, in a server process whose cache
    is [cache]: what the run returns, the session it leaves, and the cache
    it leaves for the next run. *)
Definition run (cache : Cache) (net : result DataFrame)
  : (result unit * Session) * Cache :=
  let '((r, s), cache') := st_cache load_data cache (boot net) in
  match r with
  | Ok df => ((assign "df" df;; page) s, cache')
  | Raise e => ((Raise e, s), cache')
  end.

End Script.

(** ** Lines 15-16 at binary64

    [df[i] / 60] on an int64 column converts every count to float64 and
    divides it by 60.0; on a float64 column it divides as is.  The cells
    here are the machine's: [PrimFloat.float], whose [div] is the IEEE-754
    binary64 division (round to nearest, ties to even). *)

Abbreviation float64 := PrimFloat.float.

(** int64 to float64: exact below 2^53 in magnitude, as every count is. *)
Definition f64_of_int (n : Z) : float64 :=
  if decide (0 ≤ n)%Z then PrimFloat.of_uint63 (Uint63.of_Z n)
  else PrimFloat.opp (PrimFloat.of_uint63 (Uint63.of_Z (- n))).

Inductive Column64 : Type :=
  | Int64Col (ns : list Z)
  | Float64Col (xs : list float64).

Definition col64_length (c : Column64) : nat :=
  match c with
  | Int64Col ns => length ns
  | Float64Col xs => length xs
  end.

Definition astype_float64 (c : Column64) : list float64 :=
  match c with
  | Int64Col ns => f64_of_int <$> ns
  | Float64Col xs => xs
  end.

(** [s / d] for an integer constant [d]. *)
Definition truediv64 (c : Column64) (d : Z) : Column64 :=
  Float64Col ((λ x, PrimFloat.div x (f64_of_int d)) <$> astype_float64 c).

(** Body of the first loop: [df[f"{i}_per_second"] = df[i] / 60]. *)
Definition per_second_body64 (df : gmap string Column64) (i : string)
  : result (gmap string Column64) :=
  match df !! i with
  | Some s => Ok (<[i +:+ "_per_second" := truediv64 s 60]> df)
  | None => Raise (KeyError i)
  end.

(** Lines 15-16. *)
Definition per_second_loop64 (df : gmap string Column64)
  : result (gmap string Column64) :=
  for_each rate_columns per_second_body64 df.

(** * Statement-level definitions

    Closed forms of what the code computes, the direct recomputations the
    properties compare it with, and small example tables. *)

(** The cells at positions [i-w+1 .. i], read one by one. *)
Definition trailing (w i : nat) (xs : list Float) : list Float :=
  (λ j, default NaN (xs !! j)) <$> seq (S i - w) w.

(** The suffixes and window sizes of the five lines of the second loop. *)
Definition rolling_windows : list (string * nat) :=
  [("_5_min_avg", 5); ("_hourly_avg", 60); ("_6_hr_avg", 60 * 6);
   ("_daily_avg", 60 * 24); ("_weekly_avg", 60 * 24 * 7)]%nat.

(** What one pass of the second loop writes for the series [xs] of column [i]. *)
Definition with_rolling (i : string) (xs : list Float) (df : DataFrame)
  : DataFrame :=
  foldl (λ d sw, setitem d (i +:+ sw.1) (NumCol (rolling_mean sw.2 xs)))
        df rolling_windows.

(** The series [s / 60]. *)
Definition per_second (xs : list Float) : list Float :=
  map (λ x, fdiv_const x sixty) xs.

(** The frame [load_data] returns for a fetched table whose three count
    columns are [tx], [su], [fa] and whose success ratio column is [sr]. *)
Definition averaged (df : DataFrame) (tx su fa sr : list Float) : DataFrame :=
  let df := setitem df "TX_COUNT_per_second" (NumCol (per_second tx)) in
  let df := setitem df "SUCCESS_per_second" (NumCol (per_second su)) in
  let df := setitem df "FAILS_per_second" (NumCol (per_second fa)) in
  let df := with_rolling "TX_COUNT_per_second" (per_second tx) df in
  let df := with_rolling "SUCCESS_per_second" (per_second su) df in
  let df := with_rolling "SUCCESS_RATE" sr df in
  with_rolling "FAILS_per_second" (per_second fa) df.

(** Literals: the integer [n] and the fraction [n/d] as cells. *)
Definition Qn (n : Z) : Float := Some (Qc_of_Z n).

Definition Qfrac (n : Z) (d : positive) : Float := Some (Q2Qc (n # d)).

(** A fetched table of three minutes, the last one without transactions. *)
Definition minutes3 : DataFrame :=
  mkFrame (NumCol (Qn <$> [0; 1; 2]%Z))
    (<["DATETIME" := TimeCol [0; 60; 120]%Z]>
     (<["TX_COUNT" := NumCol (Qn <$> [60; 120; 0]%Z)]>
     (<["SUCCESS" := NumCol (Qn <$> [60; 60; 0]%Z)]>
     (<["FAILS" := NumCol (Qn <$> [0; 60; 0]%Z)]>
     (<["SUCCESS_RATE" := NumCol [Qn 1; Qfrac 1 2; NaN]]> ∅))))).

(** What [load_data] makes of it. *)
Definition minutes3_out : DataFrame :=
  averaged minutes3 (Qn <$> [60; 120; 0]%Z) (Qn <$> [60; 60; 0]%Z)
    (Qn <$> [0; 60; 0]%Z) [Qn 1; Qfrac 1 2; NaN].

Global Instance Column_eq_dec : EqDecision Column.
Proof. solve_decision. Defined.

(** The same three minutes with a fetched ratio of 0 in the empty minute. *)
Definition minutes3_zero : DataFrame :=
  setitem minutes3 "SUCCESS_RATE" (NumCol [Qn 1; Qfrac 1 2; Qn 0]).

(** The names [load_data] writes. *)
Definition derived_columns : list string :=
  ((λ k, k +:+ "_per_second") <$> rate_columns) ++
  (b ← tracked_columns; (λ sw : string * nat, b +:+ sw.1) <$> rolling_windows).

(** The names the script expects in the fetched table. *)
Definition raw_columns : list string :=
  ["DATETIME"; "TX_COUNT"; "SUCCESS"; "FAILS"; "SUCCESS_RATE"].

(** A command that leaves the script variable [x] alone, whatever it
    returns or raises. *)
Definition keeps (x : string) {A : Type} (c : App A) : Prop :=
  ∀ s r s', c s = (r, s') → frames s' !! x = frames s !! x.

(** Direct recomputation over all [n] cells of a series: [sum/n], and the
    sample standard deviation over [sqrt n], cell by cell (a NaN cell makes
    them NaN). *)
Definition fsub (a b : Float) : Float :=
  match a, b with
  | Some x, Some y => Some (x - y)
  | _, _ => NaN
  end.

Definition fmul (a b : Float) : Float :=
  match a, b with
  | Some x, Some y => Some (x * y)
  | _, _ => NaN
  end.

Definition direct_var (xs : list Float) : Float :=
  if bool_decide (length xs ≤ 1)%nat then NaN
  else
    let m := amean xs in
    fdiv_const (fsum ((λ x, fmul (fsub x m) (fsub x m)) <$> xs))
               (Qc_of_nat (length xs - 1)).

Definition direct_sem (xs : list Float) : FloatR :=
  (λ v : Qc, sqrt (Q2R v) / sqrt (INR (length xs)))%R <$> direct_var xs.

(** The index of the resampled table: the start of each day. *)
Definition daily_index (ts : list Z) : Column :=
  TimeCol ((λ d, d * seconds_per_day)%Z <$> days ts).

(** The table [mean_daily] for timestamps [ts] and the three series. *)
Definition daily_table (ts : list Z) (tps suc rate : list Float) : DataFrame :=
  rename daily_names
    (setitem
       (mkFrame (daily_index ts)
          (<["TX_COUNT_per_second" := NumCol (resample_mean_col ts tps)]>
           (<["SUCCESS_per_second" := NumCol (resample_mean_col ts suc)]>
            (<["SUCCESS_RATE" := NumCol (resample_mean_col ts rate)]> ∅))))
       "date" (daily_index ts)).

(** What is wrong with column [k] for an operation that raises [e] on a
    column without numbers. *)
Definition column_problem (e : Exn) (df : DataFrame) (k : string)
  : option Exn :=
  match columns df !! k with
  | None => Some (KeyError k)
  | Some (TimeCol _) => Some e
  | Some (NumCol _) => None
  end.

(** The fetched columns [load_data] reads, in the order it first reads
    them, each with what its first use raises on a column without numbers:
    the three counts are divided (line 16), the success ratio is averaged
    over a rolling window (line 24). *)
Definition needed_columns : list (string * Exn) :=
  [("TX_COUNT", TypeError); ("SUCCESS", TypeError); ("FAILS", TypeError);
   ("SUCCESS_RATE", DataError)].

(** The first problem met in that order. *)
Definition load_problem (df : DataFrame) : option Exn :=
  foldr (λ ke rest, match column_problem ke.2 df ke.1 with
                    | Some e => Some e
                    | None => rest
                    end) None needed_columns.

(** A command that does not touch the network. *)
Definition offline {A : Type} (c : App A) : Prop :=
  ∀ s r s', c s = (r, s') → fetches s' = fetches s ∧ network s' = network s.

(** A table with a single count column. *)
Definition only_tx_count : DataFrame :=
  mkFrame (NumCol [Qn 0]) (<["TX_COUNT" := NumCol [Qn 60]]> ∅).

(** [c] run from [s] returns [a] and leaves [s']. *)
Definition runs {A : Type} (c : App A) (s : Session) (a : A) (s' : Session)
  : Prop :=
  c s = (Ok a, s').

(** The frames behind the two line charts, for timestamps [ts] and the
    series of the loaded frame. *)
Definition tps_chart (ts : list Z) (tx su : list Float) : DataFrame :=
  mkFrame (TimeCol ts)
    (<["Hourly Average, TPS" := NumCol (rolling_mean 60 (per_second tx))]>
     (<["Daily Average, TPS" := NumCol (rolling_mean (60 * 24) (per_second tx))]>
     (<["Hourly Average, Successful TPS" :=
          NumCol (rolling_mean 60 (per_second su))]>
     (<["Daily Average, Successful TPS" :=
          NumCol (rolling_mean (60 * 24) (per_second su))]> ∅)))).

Definition rate_chart (ts : list Z) (sr : list Float) : DataFrame :=
  mkFrame (TimeCol ts)
    (<["Success Rate" := NumCol sr]>
     (<["Hourly Average, Success Rate" := NumCol (rolling_mean 60 sr)]>
     (<["Daily Average, Success Rate" := NumCol (rolling_mean (60 * 24) sr)]>
      ∅))).

(** The rational a finite float64 stands for; [None] for NaN and the
    infinities. *)
Definition f64_value (x : float64) : option Q :=
  match FloatOps.Prim2SF x with
  | SpecFloat.S754_zero _ => Some 0%Q
  | SpecFloat.S754_finite s m e =>
      Some ((if s then -1 else 1) * inject_Z (Z.pos m) * Qpower 2 e)%Q
  | _ => None
  end.

(** The float64 quotient of the count [n] by 60 is within a relative 2^-53
    of [n / 60]. *)
Definition close_to_quotient (n : Z) : bool :=
  match f64_value (PrimFloat.div (f64_of_int n) (f64_of_int 60)) with
  | Some v => Qle_bool (Qabs (v * 60 - inject_Z n)) (inject_Z n * (1 # 2 ^ 53))
  | None => false
  end.

(** ... for every count in [lo, lo + 2^d). *)
Fixpoint close_in_range (d : nat) (lo : Z) : bool :=
  match d with
  | O => close_to_quotient lo
  | S d' => close_in_range d' lo && close_in_range d' (lo + 2 ^ Z.of_nat d')
  end.

(** One minute with 31 transactions, 30 of them successful. *)
Definition minute31 : gmap string Column64 :=
  <["TX_COUNT" := Int64Col [31%Z]]>
   (<["SUCCESS" := Int64Col [30%Z]]>
    (<["FAILS" := Int64Col [1%Z]]> ∅)).

(** Sixty-one minutes, the first without transactions and with an
    undefined success ratio, and what [load_data] makes of them. *)
Definition hour_tx : list Float := Qn 0 :: replicate 60 (Qn 120).
Definition hour_su : list Float := Qn 0 :: replicate 60 (Qn 90).
Definition hour_fa : list Float := Qn 0 :: replicate 60 (Qn 30).
Definition hour_sr : list Float := NaN :: replicate 60 (Qfrac 3 4).

Definition hour : DataFrame :=
  mkFrame (NumCol (Qn <$> seqZ 0 61))
    (<["DATETIME" := TimeCol ((λ i, 60 * i)%Z <$> seqZ 0 61)]>
     (<["TX_COUNT" := NumCol hour_tx]>
     (<["SUCCESS" := NumCol hour_su]>
     (<["FAILS" := NumCol hour_fa]>
     (<["SUCCESS_RATE" := NumCol hour_sr]> ∅))))).

Definition hour_out : DataFrame :=
  averaged hour hour_tx hour_su hour_fa hour_sr.

(** Two minutes on consecutive days, all values defined. *)
Definition two_days : DataFrame :=
  mkFrame (NumCol (Qn <$> [0; 1]%Z))
    (<["DATETIME" := TimeCol [0; 86400]%Z]>
     (<["TX_COUNT" := NumCol (Qn <$> [60; 120]%Z)]>
     (<["SUCCESS" := NumCol (Qn <$> [60; 60]%Z)]>
     (<["FAILS" := NumCol (Qn <$> [0; 60]%Z)]>
     (<["SUCCESS_RATE" := NumCol [Qn 1; Qfrac 1 2]]> ∅))))).

Definition two_days_out : DataFrame :=
  averaged two_days (Qn <$> [60; 120]%Z) (Qn <$> [60; 60]%Z)
    (Qn <$> [0; 60]%Z) [Qn 1; Qfrac 1 2].

(** A kernel that shows which samples it was given. *)
Definition sums_kernel (xs ys : list Qc) : FloatR * FloatR :=
  (Some (Q2R (Qcsum xs)), Some (Q2R (Qcsum ys))).

(** A table whose success ratio column holds timestamps. *)
Definition dated_ratio : DataFrame :=
  mkFrame (NumCol [Qn 0])
    (<["TX_COUNT" := NumCol [Qn 60]]>
     (<["SUCCESS" := NumCol [Qn 60]]>
      (<["FAILS" := NumCol [Qn 0]]>
       (<["SUCCESS_RATE" := TimeCol [0%Z]]> ∅)))).

(** A table with the four data columns and no DATETIME. *)
Definition undated : DataFrame :=
  mkFrame (NumCol [Qn 0])
    (<["TX_COUNT" := NumCol [Qn 60]]>
     (<["SUCCESS" := NumCol [Qn 60]]>
      (<["FAILS" := NumCol [Qn 0]]>
       (<["SUCCESS_RATE" := NumCol [Qn 1]]> ∅)))).

(** * Properties *)

(** ** Cells and sums *)

Lemma dropna_length_le (l : list Float) : (length (dropna l) ≤ length l)%nat.
Proof. induction l as [|[x|] l IH]; simpl; lia. Qed.

(** A series without NaN is its own list of observations. *)
Lemma dropna_full (l : list Float) :
  length (dropna l) = length l → l = Some <$> dropna l.
Proof.
  induction l as [|[x|] l IH]; simpl; intros Hlen.
  - reflexivity.
  - f_equal. apply IH. lia.
  - pose proof (dropna_length_le l). lia.
Qed.

Lemma fsum_Some (obs : list Qc) : fsum (Some <$> obs) = Some (Qcsum obs).
Proof.
  induction obs as [|x obs IH]; csimpl; [reflexivity|].
  unfold fsum in *. simpl. rewrite IH. reflexivity.
Qed.

Lemma fsum_full (l : list Float) :
  length (dropna l) = length l → fsum l = Some (Qcsum (dropna l)).
Proof. intros H. rewrite <- fsum_Some. f_equal. by apply dropna_full. Qed.

Lemma fsum_nan (l : list Float) : NaN ∈ l → fsum l = NaN.
Proof.
  induction l as [|a l IH]; intros Hin.
  - inversion Hin.
  - unfold fsum. simpl. apply elem_of_cons in Hin as [<-|Hin].
    + reflexivity.
    + unfold fsum in IH. rewrite (IH Hin). destruct a; reflexivity.
Qed.

Lemma dropna_nan_length (l : list Float) :
  NaN ∈ l → (length (dropna l) < length l)%nat.
Proof.
  induction l as [|a l IH]; intros Hin.
  - inversion Hin.
  - apply elem_of_cons in Hin as [<-|Hin]; simpl.
    + pose proof (dropna_length_le l). lia.
    + specialize (IH Hin). destruct a; simpl; lia.
Qed.

Lemma nan_or_full (l : list Float) :
  NaN ∈ l ∨ length (dropna l) = length l.
Proof.
  induction l as [|[x|] l IH]; simpl.
  - by right.
  - destruct IH as [IH|IH]; [left; by right | right; lia].
  - left. by left.
Qed.

(** ** Rolling means *)

Lemma window_length (w i : nat) (xs : list Float) :
  (i < length xs)%nat → length (window w i xs) = Nat.min w (S i).
Proof.
  intros Hi. unfold window. rewrite length_take, length_drop. lia.
Qed.

Lemma rolling_mean_length (w : nat) (xs : list Float) :
  length (rolling_mean w xs) = length xs.
Proof. unfold rolling_mean. by rewrite length_map, length_seq. Qed.

Lemma rolling_mean_lookup (w i : nat) (xs : list Float) :
  (i < length xs)%nat →
  rolling_mean w xs !! i = Some (roll_mean_at w (window w i xs)).
Proof.
  intros Hi. unfold rolling_mean.
  rewrite list_lookup_fmap, lookup_seq_lt by done. reflexivity.
Qed.

(** On a full window the pandas rule (count the observations, compare with
    [min_periods]) is the plain mean of the window's cells. *)
Lemma roll_mean_at_full (w : nat) (win : list Float) :
  length win = w → (0 < w)%nat → roll_mean_at w win = amean win.
Proof.
  intros Hlen Hw. unfold roll_mean_at, amean.
  destruct win as [|a win'] eqn:Ewin; [simpl in Hlen; lia|].
  rewrite <- Ewin in *. clear Ewin a win'.
  destruct (nan_or_full win) as [Hnan|Hfull].
  - rewrite (fsum_nan _ Hnan). simpl.
    pose proof (dropna_nan_length _ Hnan).
    rewrite bool_decide_eq_false_2 by lia. reflexivity.
  - rewrite (fsum_full _ Hfull). simpl.
    rewrite Hfull. rewrite !bool_decide_eq_true_2 by lia. reflexivity.
Qed.

(** Fewer than [min_periods] observations give NaN. *)
Lemma roll_mean_at_few (w : nat) (win : list Float) :
  (length (dropna win) < w)%nat → roll_mean_at w win = NaN.
Proof.
  intros Hlen. unfold roll_mean_at.
  rewrite bool_decide_eq_false_2 by lia. reflexivity.
Qed.

(** Before the window is full there are too few observations. *)
Lemma roll_mean_at_short (w : nat) (win : list Float) :
  (length win < w)%nat → roll_mean_at w win = NaN.
Proof.
  intros Hlen. apply roll_mean_at_few.
  pose proof (dropna_length_le win). lia.
Qed.

Lemma trailing_window (w i : nat) (xs : list Float) :
  (w ≤ S i)%nat → (i < length xs)%nat → trailing w i xs = window w i xs.
Proof.
  intros Hw Hi. unfold trailing, window.
  apply list_eq. intros j.
  rewrite list_lookup_fmap.
  destruct (decide (j < w)%nat) as [Hj|Hj].
  - rewrite lookup_seq_lt by done. simpl.
    rewrite lookup_take_lt by lia. rewrite lookup_drop.
    destruct (lookup_lt_is_Some_2 xs (S i - w + j)) as [x Hx]; [lia|].
    by rewrite Hx.
  - rewrite lookup_seq_ge by lia. simpl.
    symmetry. apply lookup_ge_None_2. rewrite length_take, length_drop. lia.
Qed.

(** ** The frame built by [load_data] *)

Lemma bind_Ok {A B : Type} (m : result A) (f : A → result B) (b : B) :
  m ≫= f = Ok b ↔ ∃ a, m = Ok a ∧ f a = Ok b.
Proof.
  destruct m as [a|e]; simpl; split.
  - intros H. by exists a.
  - by intros (a' & [= <-] & H).
  - intros H. discriminate.
  - by intros (a' & [=] & _).
Qed.

Lemma getitem_Ok (df : DataFrame) (k : string) (c : Column) :
  getitem df k = Ok c ↔ columns df !! k = Some c.
Proof.
  unfold getitem. destruct (columns df !! k); split; intros H; congruence.
Qed.

Lemma per_second_body_Ok (df df' : DataFrame) (i : string) :
  per_second_body df i = Ok df' ↔
  ∃ xs, columns df !! i = Some (NumCol xs) ∧
        df' = setitem df (i +:+ "_per_second")
                (NumCol (map (λ x, fdiv_const x sixty) xs)).
Proof.
  unfold per_second_body. rewrite bind_Ok. split.
  - intros (c & Hc%getitem_Ok & H). apply bind_Ok in H as (r & Hr & [= <-]).
    destruct c as [xs|ts]; simpl in Hr; [|discriminate].
    injection Hr as <-. by exists xs.
  - intros (xs & Hxs & ->). exists (NumCol xs). split; [by apply getitem_Ok|].
    reflexivity.
Qed.

Lemma rolling_line_Ok (suffix : string) (w : nat) (i : string)
    (df df' : DataFrame) :
  rolling_line suffix w i df = Ok df' ↔
  ∃ xs, columns df !! i = Some (NumCol xs) ∧
        df' = setitem df (i +:+ suffix) (NumCol (rolling_mean w xs)).
Proof.
  unfold rolling_line. rewrite bind_Ok. split.
  - intros (c & Hc%getitem_Ok & H). apply bind_Ok in H as (r & Hr & [= <-]).
    destruct c as [xs|ts]; simpl in Hr; [|discriminate].
    injection Hr as <-. by exists xs.
  - intros (xs & Hxs & ->). exists (NumCol xs). split; [by apply getitem_Ok|].
    reflexivity.
Qed.

Lemma append_ne (i s : string) : s ≠ "" → i +:+ s ≠ i.
Proof.
  intros Hs. induction i as [|a i IH]; simpl.
  - done.
  - intros [= H]. by apply IH.
Qed.

Lemma rolling_body_Ok (df df' : DataFrame) (i : string) :
  rolling_body df i = Ok df' ↔
  ∃ xs, columns df !! i = Some (NumCol xs) ∧ df' = with_rolling i xs df.
Proof.
  unfold rolling_body, with_rolling, rolling_windows. cbn [foldl fst snd].
  split.
  - intros H.
    apply bind_Ok in H as (d1 & (xs & Hxs & ->)%rolling_line_Ok & H).
    apply bind_Ok in H as (d2 & (xs2 & Hxs2 & ->)%rolling_line_Ok & H).
    apply bind_Ok in H as (d3 & (xs3 & Hxs3 & ->)%rolling_line_Ok & H).
    apply bind_Ok in H as (d4 & (xs4 & Hxs4 & ->)%rolling_line_Ok & H).
    apply rolling_line_Ok in H as (xs5 & Hxs5 & ->).
    cbn [columns setitem] in *.
    repeat match goal with
           | H : <[_ := _]> _ !! _ = _ |- _ =>
               rewrite lookup_insert_ne in H by (by apply append_ne)
           end.
    exists xs. split; [done|]. congruence.
  - intros (xs & Hxs & ->).
    repeat (apply bind_Ok; eexists; split;
            [apply rolling_line_Ok; exists xs; split; [|reflexivity];
             cbn [columns setitem];
             rewrite ?lookup_insert_ne by (by apply append_ne); done|]).
    apply rolling_line_Ok. exists xs. split; [|reflexivity].
    cbn [columns setitem]. rewrite ?lookup_insert_ne by (by apply append_ne). done.
Qed.

(** Lookups in a pile of [df[k] = c] assignments with literal keys. *)
Ltac frame_lookup :=
  cbn [columns setitem with_rolling rolling_windows foldl fst snd
       String.append averaged];
  repeat first
    [ rewrite lookup_insert_eq
    | rewrite lookup_insert_ne by discriminate ].

Lemma create_averages_Ok (df out : DataFrame) :
  create_averages df = Ok out ↔
  ∃ tx su fa sr,
    columns df !! "TX_COUNT" = Some (NumCol tx) ∧
    columns df !! "SUCCESS" = Some (NumCol su) ∧
    columns df !! "FAILS" = Some (NumCol fa) ∧
    columns df !! "SUCCESS_RATE" = Some (NumCol sr) ∧
    out = averaged df tx su fa sr.
Proof.
  unfold create_averages, rate_columns, tracked_columns. simpl for_each.
  split.
  - intros H. apply bind_Ok in H as (d0 & H0 & H).
    apply bind_Ok in H0 as (d1 & (tx & Htx & ->)%per_second_body_Ok & H0).
    apply bind_Ok in H0 as (d2 & (su & Hsu & ->)%per_second_body_Ok & H0).
    apply bind_Ok in H0 as (d3 & (fa & Hfa & ->)%per_second_body_Ok & [= <-]).
    apply bind_Ok in H as (e1 & (x1 & Hx1 & ->)%rolling_body_Ok & H).
    apply bind_Ok in H as (e2 & (x2 & Hx2 & ->)%rolling_body_Ok & H).
    apply bind_Ok in H as (e3 & (sr & Hsr & ->)%rolling_body_Ok & H).
    apply bind_Ok in H as (e4 & (x4 & Hx4 & ->)%rolling_body_Ok & [= <-]).
    revert Hsu Hfa Hx1 Hx2 Hsr Hx4. frame_lookup.
    intros Hsu Hfa [= <-] [= <-] Hsr [= <-].
    exists tx, su, fa, sr. done.
  - intros (tx & su & fa & sr & Htx & Hsu & Hfa & Hsr & ->).
    apply bind_Ok. eexists. split.
    + apply bind_Ok. eexists. split;
        [apply per_second_body_Ok; exists tx; split; [done|reflexivity]|].
      apply bind_Ok. eexists. split;
        [apply per_second_body_Ok; exists su; split; [|reflexivity]|].
      { frame_lookup. done. }
      apply bind_Ok. eexists. split;
        [apply per_second_body_Ok; exists fa; split; [|reflexivity]|].
      { frame_lookup. done. }
      reflexivity.
    + apply bind_Ok. eexists. split;
        [apply rolling_body_Ok; eexists; split; [|reflexivity]|].
      { frame_lookup. done. }
      apply bind_Ok. eexists. split;
        [apply rolling_body_Ok; eexists; split; [|reflexivity]|].
      { frame_lookup. done. }
      apply bind_Ok. eexists. split;
        [apply rolling_body_Ok; exists sr; split; [|reflexivity]|].
      { frame_lookup. done. }
      apply bind_Ok. eexists. split;
        [apply rolling_body_Ok; eexists; split; [|reflexivity]|].
      { frame_lookup. done. }
      reflexivity.
Qed.

Lemma load_data_Ok (s s' : Session) (out : DataFrame) :
  load_data s = (Ok out, s') ↔
  ∃ df, network s = Ok df ∧ create_averages df = Ok out ∧
        s' = mkSession (network s) (S (fetches s)) (screen s) (frames s).
Proof.
  unfold load_data, mbind, app_bind, pd_read_json, lift.
  destruct (network s) as [df|e]; split.
  - intros [= H <-]. by exists df.
  - intros (df' & [= <-] & H & ->). by rewrite H.
  - intros [=].
  - intros (df' & [=] & _).
Qed.

Ltac in_list := repeat first [apply list_elem_of_here | apply list_elem_of_further].

Ltac elem_cases H :=
  repeat (apply elem_of_cons in H as [H|H]; [try subst|]);
  [..|by apply elem_of_nil in H].

(** Row by row behaviour of [rolling(w).mean()]. *)
Lemma rolling_mean_full (w i : nat) (xs : list Float) :
  (0 < w)%nat → (i < length xs)%nat → (w - 1 ≤ i)%nat →
  rolling_mean w xs !! i = Some (amean (trailing w i xs)).
Proof.
  intros Hw Hi Hwi. rewrite rolling_mean_lookup by done. f_equal.
  rewrite trailing_window by lia.
  apply roll_mean_at_full; [|done]. rewrite window_length by done. lia.
Qed.

Lemma rolling_mean_warmup (w i : nat) (xs : list Float) :
  (i < length xs)%nat → (i < w - 1)%nat → rolling_mean w xs !! i = Some NaN.
Proof.
  intros Hi Hwi. rewrite rolling_mean_lookup by done. f_equal.
  apply roll_mean_at_short. rewrite window_length by done. lia.
Qed.

Lemma rolling_windows_positive (suffix : string) (w : nat) :
  (suffix, w) ∈ rolling_windows → (0 < w)%nat.
Proof.
  intros H. unfold rolling_windows in H. elem_cases H; injection H as -> ->; lia.
Qed.

(** Every tracked column is numeric in the result and has its five rolling
    companions. *)
Lemma averaged_rolling (df : DataFrame) (tx su fa sr : list Float)
    (b suffix : string) (w : nat) :
  columns df !! "SUCCESS_RATE" = Some (NumCol sr) →
  b ∈ tracked_columns → (suffix, w) ∈ rolling_windows →
  ∃ xs, columns (averaged df tx su fa sr) !! b = Some (NumCol xs) ∧
        columns (averaged df tx su fa sr) !! (b +:+ suffix) =
          Some (NumCol (rolling_mean w xs)).
Proof.
  intros Hsr Hb Hw. unfold tracked_columns, rolling_windows in *.
  elem_cases Hb; elem_cases Hw; injection Hw as -> ->;
    eexists; (split; [frame_lookup; try exact Hsr; reflexivity|]);
    frame_lookup; reflexivity.
Qed.

Lemma window_elem (w i j : nat) (xs : list Float) (x : Float) :
  (j ≤ i)%nat → (i < j + w)%nat → xs !! j = Some x → x ∈ window w i xs.
Proof.
  intros Hji Hjw Hx. unfold window. apply list_elem_of_lookup.
  exists (j - (S i - w))%nat.
  rewrite lookup_take_lt by lia. rewrite lookup_drop.
  replace (S i - w + (j - (S i - w)))%nat with j by lia. done.
Qed.

Lemma rolling_mean_nan (w i j : nat) (xs : list Float) :
  (i < length xs)%nat → (j ≤ i)%nat → (i < j + w)%nat → xs !! j = Some NaN →
  rolling_mean w xs !! i = Some NaN.
Proof.
  intros Hi Hji Hjw Hx. rewrite rolling_mean_lookup by done. f_equal.
  apply roll_mean_at_few.
  pose proof (dropna_nan_length _ (window_elem w i j xs NaN Hji Hjw Hx)) as H.
  rewrite window_length in H by done. lia.
Qed.

Ltac by_evaluation := apply (bool_decide_unpack _); vm_compute; exact I.

Lemma minutes3_loaded :
  load_data (boot (Ok minutes3)) =
    (Ok minutes3_out, mkSession (Ok minutes3) 1 [] ∅).
Proof. apply load_data_Ok. exists minutes3. split; [done|]. split; [|done].
  apply create_averages_Ok. eexists _, _, _, _. repeat split; reflexivity. Qed.

(** C1.  In the frame returned by [load_data], for each of the four tracked
    series and each of the five windows the rolling column has one entry per
    row; at every row [i >= w-1] it is the arithmetic mean of the cells at
    positions [i-w+1 .. i], and at every row [i < w-1] it is NaN (not zero).
    The window sizes are 5, 60, 360, 1440 and 10080, and the 5-wide rolling
    mean of [1..7] is NaN at rows 0-3 and 3, 4, 5 at rows 4-6. *)
Theorem rolling_columns_spec (df out : DataFrame) (s' : Session)
    (b suffix : string) (w : nat) :
  load_data (boot (Ok df)) = (Ok out, s') →
  b ∈ tracked_columns → (suffix, w) ∈ rolling_windows →
  ∃ xs ys,
    columns out !! b = Some (NumCol xs) ∧
    columns out !! (b +:+ suffix) = Some (NumCol ys) ∧
    length ys = length xs ∧
    (∀ i, (i < length xs)%nat → (w - 1 ≤ i)%nat →
          ys !! i = Some (amean (trailing w i xs))) ∧
    (∀ i, (i < length xs)%nat → (i < w - 1)%nat →
          ys !! i = Some NaN ∧ ys !! i ≠ Some (Qn 0)) ∧
    Z.of_nat <$> rolling_windows.*2 = [5; 60; 360; 1440; 10080]%Z ∧
    rolling_mean 5 (Qn <$> [1; 2; 3; 4; 5; 6; 7]%Z) =
      [NaN; NaN; NaN; NaN; Qn 3; Qn 4; Qn 5].
Proof.
  intros (df' & [= <-] & (tx & su & fa & sr & _ & _ & _ & Hsr & ->)%create_averages_Ok & _)%load_data_Ok
         Hb Hw.
  destruct (averaged_rolling df tx su fa sr b suffix w Hsr Hb Hw) as (xs & Hxs & Hys).
  pose proof (rolling_windows_positive _ _ Hw) as Hpos.
  exists xs, (rolling_mean w xs). split; [done|]. split; [done|].
  split; [apply rolling_mean_length|].
  split; [intros i Hi Hwi; by apply rolling_mean_full|].
  split.
  { intros i Hi Hwi. rewrite rolling_mean_warmup by done. done. }
  split; [by vm_compute|]. by_evaluation.
Qed.

Lemma rolling_columns_spec_witness :
  ∃ xs ys,
    columns minutes3_out !! "SUCCESS_RATE" = Some (NumCol xs) ∧
    columns minutes3_out !! "SUCCESS_RATE_5_min_avg" = Some (NumCol ys) ∧
    length ys = length xs ∧
    (∀ i, (i < length xs)%nat → (5 - 1 ≤ i)%nat →
          ys !! i = Some (amean (trailing 5 i xs))) ∧
    (∀ i, (i < length xs)%nat → (i < 5 - 1)%nat →
          ys !! i = Some NaN ∧ ys !! i ≠ Some (Qn 0)) ∧
    Z.of_nat <$> rolling_windows.*2 = [5; 60; 360; 1440; 10080]%Z ∧
    rolling_mean 5 (Qn <$> [1; 2; 3; 4; 5; 6; 7]%Z) =
      [NaN; NaN; NaN; NaN; Qn 3; Qn 4; Qn 5].
Proof.
  apply (rolling_columns_spec minutes3 minutes3_out
           (mkSession (Ok minutes3) 1 [] ∅) "SUCCESS_RATE" "_5_min_avg" 5).
  - exact minutes3_loaded.
  - unfold tracked_columns. in_list.
  - unfold rolling_windows. in_list.
Defined.

Lemma averaged_rates (df : DataFrame) (tx su fa sr : list Float) :
  columns (averaged df tx su fa sr) !! "TX_COUNT_per_second" =
    Some (NumCol (per_second tx)) ∧
  columns (averaged df tx su fa sr) !! "SUCCESS_per_second" =
    Some (NumCol (per_second su)) ∧
  columns (averaged df tx su fa sr) !! "FAILS_per_second" =
    Some (NumCol (per_second fa)).
Proof. repeat split; frame_lookup; reflexivity. Qed.

(** ** The per-second rates, to the last bit *)

Lemma per_second_loop64_Ok (df out : gmap string Column64) :
  per_second_loop64 df = Ok out ↔
  ∃ tx su fa,
    df !! "TX_COUNT" = Some tx ∧ df !! "SUCCESS" = Some su ∧
    df !! "FAILS" = Some fa ∧
    out = <["FAILS_per_second" := truediv64 fa 60]>
           (<["SUCCESS_per_second" := truediv64 su 60]>
            (<["TX_COUNT_per_second" := truediv64 tx 60]> df)).
Proof.
  unfold per_second_loop64, rate_columns. cbn [for_each].
  unfold per_second_body64. cbn [String.append].
  destruct (df !! "TX_COUNT") as [tx|] eqn:Htx; cbn [mbind result_bind].
  2: { split; [discriminate | by intros (? & ? & ? & [=] & _)]. }
  rewrite lookup_insert_ne by discriminate.
  destruct (df !! "SUCCESS") as [su|] eqn:Hsu; cbn [mbind result_bind].
  2: { split; [discriminate | by intros (? & ? & ? & _ & [=] & _)]. }
  rewrite !lookup_insert_ne by discriminate.
  destruct (df !! "FAILS") as [fa|] eqn:Hfa; cbn [mbind result_bind].
  2: { split; [discriminate | by intros (? & ? & ? & _ & _ & [=] & _)]. }
  split.
  - intros [= <-]. by exists tx, su, fa.
  - intros (? & ? & ? & [= <-] & [= <-] & [= <-] & ->). reflexivity.
Qed.

Lemma close_in_range_spec (d : nat) (lo n : Z) :
  close_in_range d lo = true → (lo ≤ n < lo + 2 ^ Z.of_nat d)%Z →
  close_to_quotient n = true.
Proof.
  revert lo. induction d as [|d IH]; intros lo H Hn.
  - change (2 ^ Z.of_nat 0)%Z with 1%Z in Hn. cbn [close_in_range] in H.
    by replace n with lo by lia.
  - cbn [close_in_range] in H. apply andb_true_iff in H as [H1 H2].
    rewrite Nat2Z.inj_succ, Z.pow_succ_r in Hn by lia.
    destruct (decide (n < lo + 2 ^ Z.of_nat d)%Z).
    + apply (IH lo); [done|lia].
    + apply (IH (lo + 2 ^ Z.of_nat d)%Z); [done|lia].
Qed.

Lemma close_to_quotient_spec (n : Z) :
  close_to_quotient n = true →
  ∃ v, f64_value (PrimFloat.div (f64_of_int n) (f64_of_int 60)) = Some v ∧
       (Qabs (v * 60 - inject_Z n) <= inject_Z n * (1 # 2 ^ 53))%Q.
Proof.
  unfold close_to_quotient.
  destruct (f64_value _) as [v|]; [|discriminate].
  intros H%Qle_bool_iff. by exists v.
Qed.

(** Checked count by count. *)
Lemma counts_close : close_in_range 16 0 = true.
Proof. vm_compute. reflexivity. Qed.

(** The rational cell [n / 60] of the model of the whole script. *)
Lemma sixtieth_value (n : Z) :
  (this (Qc_of_Z n / sixty)%Qc == inject_Z n * (1 # 60))%Q.
Proof.
  unfold Qcdiv, Qcmult, Qcinv, sixty, Qc_of_Z. cbn [this Q2Qc].
  rewrite !Qred_correct. reflexivity.
Qed.

(** What [s / 60] holds, row by row. *)
Lemma truediv64_rows (c : Column64) :
  ∃ ys,
    truediv64 c 60 = Float64Col ys ∧
    length ys = col64_length c ∧
    (∀ i x, astype_float64 c !! i = Some x →
            ys !! i = Some (PrimFloat.div x (f64_of_int 60))) ∧
    (∀ ns i n, c = Int64Col ns → ns !! i = Some n → (0 ≤ n < 2 ^ 16)%Z →
       ∃ q v (r : Qc),
         ys !! i = Some q ∧ f64_value q = Some v ∧
         (Qabs (v * 60 - inject_Z n) <= inject_Z n * (1 # 2 ^ 53))%Q ∧
         per_second (Qn <$> ns) !! i = Some (Some r) ∧
         (Qabs (v - r) <= r * (1 # 2 ^ 53))%Q).
Proof.
  eexists. split; [reflexivity|]. split.
  { rewrite length_fmap. destruct c; simpl; [by rewrite length_fmap | done]. }
  split.
  { intros i x Hx. by rewrite list_lookup_fmap, Hx. }
  intros ns i n -> Hn Hrange.
  destruct (close_to_quotient_spec n) as (v & Hv & Hclose).
  { apply (close_in_range_spec 16 0); [exact counts_close | exact Hrange]. }
  exists (PrimFloat.div (f64_of_int n) (f64_of_int 60)), v,
    (Qc_of_Z n / sixty)%Qc.
  split; [cbn [astype_float64]; by rewrite !list_lookup_fmap, Hn|].
  split; [exact Hv|]. split; [exact Hclose|]. split.
  { unfold per_second. change (map ?f ?l) with (f <$> l).
    by rewrite !list_lookup_fmap, Hn. }
  rewrite sixtieth_value.
  assert (v - inject_Z n * (1 # 60) == (v * 60 - inject_Z n) * (1 # 60))%Q
    as -> by field.
  rewrite Qabs_Qmult.
  assert (inject_Z n * (1 # 60) * (1 # 2 ^ 53) ==
          inject_Z n * (1 # 2 ^ 53) * (1 # 60))%Q as -> by ring.
  apply Qmult_le_compat_r; [exact Hclose | done].
Qed.

(** C2, as stated, fails: a rate is not always its count divided by 60
    exactly.  For a minute with 31 transactions the stored rate is the
    float64 nearest to 31/60, which is not 31/60: 60 times its value is
    not 31. *)
Lemma per_second_not_exact :
  ¬ (∀ (df out : gmap string Column64) (k : string) (ns : list Z)
       (ys : list float64) (i : nat) (n : Z) (q : float64),
       per_second_loop64 df = Ok out →
       k ∈ rate_columns →
       df !! k = Some (Int64Col ns) →
       out !! (k +:+ "_per_second") = Some (Float64Col ys) →
       ns !! i = Some n → ys !! i = Some q →
       ∃ v, f64_value q = Some v ∧ (v * 60 == inject_Z n)%Q).
Proof.
  intros H.
  destruct (H minute31
              (<["FAILS_per_second" := truediv64 (Int64Col [1%Z]) 60]>
                (<["SUCCESS_per_second" := truediv64 (Int64Col [30%Z]) 60]>
                 (<["TX_COUNT_per_second" := truediv64 (Int64Col [31%Z]) 60]>
                  minute31)))
              "TX_COUNT" [31%Z]
              [PrimFloat.div (f64_of_int 31) (f64_of_int 60)] 0%nat 31%Z
              (PrimFloat.div (f64_of_int 31) (f64_of_int 60)))
    as (v & Hv & Heq).
  - apply per_second_loop64_Ok. eexists _, _, _.
    split; [reflexivity|]. split; [reflexivity|]. split; reflexivity.
  - unfold rate_columns. in_list.
  - reflexivity.
  - vm_compute. reflexivity.
  - reflexivity.
  - reflexivity.
  - vm_compute in Hv. injection Hv as <-. vm_compute in Heq. discriminate Heq.
Qed.

(** C2, amended.  For each of the three count columns the first loop of
    [load_data] writes a per-second column of the same length whose entry in
    every row is the float64 quotient of that row's count by 60: the
    quotient rounded to the nearest float64, with no other rounding.  For
    every count below 2^16 it is within a relative 2^-53 of count/60, the
    cell the rational model of the script holds in that row.  It is the
    exact quotient when that is a float64 (60, 120, 0 give 1, 2, 0) and not
    otherwise: 31 gives 4653719614949513 / 2^53, and multiplying that by 60
    in float64 gives 31 + 2^-48, not 31. *)
Theorem per_second_rates_rounded (df out : gmap string Column64) (k : string) :
  per_second_loop64 df = Ok out →
  k ∈ rate_columns →
  ∃ c ys,
    df !! k = Some c ∧
    out !! (k +:+ "_per_second") = Some (Float64Col ys) ∧
    length ys = col64_length c ∧
    (∀ i x, astype_float64 c !! i = Some x →
            ys !! i = Some (PrimFloat.div x (f64_of_int 60))) ∧
    (∀ ns i n, c = Int64Col ns → ns !! i = Some n → (0 ≤ n < 2 ^ 16)%Z →
       ∃ q v (r : Qc),
         ys !! i = Some q ∧ f64_value q = Some v ∧
         (Qabs (v * 60 - inject_Z n) <= inject_Z n * (1 # 2 ^ 53))%Q ∧
         per_second (Qn <$> ns) !! i = Some (Some r) ∧
         (Qabs (v - r) <= r * (1 # 2 ^ 53))%Q) ∧
    truediv64 (Int64Col [60; 120; 0]%Z) 60 =
      Float64Col (f64_of_int <$> [1; 2; 0]%Z) ∧
    f64_value (PrimFloat.div (f64_of_int 31) (f64_of_int 60)) =
      Some (4653719614949513 # 2 ^ 53) ∧
    f64_value (PrimFloat.mul (PrimFloat.div (f64_of_int 31) (f64_of_int 60))
                 (f64_of_int 60)) =
      Some (31 * 2 ^ 48 + 1 # 2 ^ 48).
Proof.
  intros (tx & su & fa & Htx & Hsu & Hfa & ->)%per_second_loop64_Ok Hk.
  unfold rate_columns in Hk. elem_cases Hk; cbn [String.append].
  - destruct (truediv64_rows tx) as (ys & -> & Hrows).
    exists tx, ys. split; [exact Htx|]. split.
    { rewrite !lookup_insert_ne by discriminate. apply lookup_insert_eq. }
    destruct Hrows as (H1 & H2 & H3).
    split; [exact H1|]. split; [exact H2|]. split; [exact H3|].
    split; [vm_compute; reflexivity|]. split; vm_compute; reflexivity.
  - destruct (truediv64_rows su) as (ys & -> & Hrows).
    exists su, ys. split; [exact Hsu|]. split.
    { rewrite !lookup_insert_ne by discriminate. apply lookup_insert_eq. }
    destruct Hrows as (H1 & H2 & H3).
    split; [exact H1|]. split; [exact H2|]. split; [exact H3|].
    split; [vm_compute; reflexivity|]. split; vm_compute; reflexivity.
  - destruct (truediv64_rows fa) as (ys & -> & Hrows).
    exists fa, ys. split; [exact Hfa|]. split; [apply lookup_insert_eq|].
    destruct Hrows as (H1 & H2 & H3).
    split; [exact H1|]. split; [exact H2|]. split; [exact H3|].
    split; [vm_compute; reflexivity|]. split; vm_compute; reflexivity.
Qed.

Lemma per_second_rates_rounded_witness :
  ∃ q v,
    f64_value q = Some v ∧
    (Qabs (v * 60 - inject_Z 31) <= inject_Z 31 * (1 # 2 ^ 53))%Q ∧
    ¬ (v * 60 == inject_Z 31)%Q.
Proof.
  destruct (per_second_rates_rounded minute31
              (<["FAILS_per_second" := truediv64 (Int64Col [1%Z]) 60]>
                (<["SUCCESS_per_second" := truediv64 (Int64Col [30%Z]) 60]>
                 (<["TX_COUNT_per_second" := truediv64 (Int64Col [31%Z]) 60]>
                  minute31)))
              "TX_COUNT")
    as (c & ys & Hc & Hys & _ & Hrow & Hclose & _ & H31 & _).
  - apply per_second_loop64_Ok. eexists _, _, _.
    split; [reflexivity|]. split; [reflexivity|]. split; reflexivity.
  - unfold rate_columns. in_list.
  - assert (c = Int64Col [31%Z]) as Ec
      by (assert (Some c = Some (Int64Col [31%Z])) as [= E] by (by rewrite <- Hc);
          exact E).
    destruct (Hclose [31%Z] 0%nat 31%Z Ec eq_refl)
      as (q & v & r & Hq & Hv & Hle & _); [lia|].
    exists q, v. split; [exact Hv|]. split; [exact Hle|].
    rewrite Ec in Hrow. rewrite (Hrow 0%nat _ eq_refl) in Hq.
    injection Hq as <-. intros Heq.
    vm_compute in Hv. injection Hv as <-.
    vm_compute in Heq. discriminate Heq.
Defined.

(** C7.  In every rolling column written by [load_data], a row whose window
    (the [w] positions ending at that row) holds a NaN is itself NaN: the
    defined entries of such a window are not averaged.  For instance the
    5-wide rolling mean of [1, 2, NaN, 4, 5, 6, 7, 8] is NaN up to row 6 and
    6 at row 7. *)
Theorem rolling_propagates_nan (df out : DataFrame) (s' : Session)
    (b suffix : string) (w : nat) :
  load_data (boot (Ok df)) = (Ok out, s') →
  b ∈ tracked_columns → (suffix, w) ∈ rolling_windows →
  ∃ xs ys,
    columns out !! b = Some (NumCol xs) ∧
    columns out !! (b +:+ suffix) = Some (NumCol ys) ∧
    (∀ i j, (i < length xs)%nat → (j ≤ i)%nat → (i < j + w)%nat →
            xs !! j = Some NaN → ys !! i = Some NaN) ∧
    rolling_mean 5 [Qn 1; Qn 2; NaN; Qn 4; Qn 5; Qn 6; Qn 7; Qn 8] =
      [NaN; NaN; NaN; NaN; NaN; NaN; NaN; Qn 6].
Proof.
  intros (df' & [= <-] & (tx & su & fa & sr & _ & _ & _ & Hsr & ->)%create_averages_Ok & _)%load_data_Ok
         Hb Hw.
  destruct (averaged_rolling df tx su fa sr b suffix w Hsr Hb Hw) as (xs & Hxs & Hys).
  exists xs, (rolling_mean w xs). split; [done|]. split; [done|].
  split; [|by_evaluation].
  intros i j Hi Hji Hjw Hj. by apply (rolling_mean_nan w i j).
Qed.

Lemma rolling_propagates_nan_witness :
  ∃ xs ys,
    columns minutes3_out !! "SUCCESS_RATE" = Some (NumCol xs) ∧
    columns minutes3_out !! "SUCCESS_RATE_hourly_avg" = Some (NumCol ys) ∧
    (∀ i j, (i < length xs)%nat → (j ≤ i)%nat → (i < j + 60)%nat →
            xs !! j = Some NaN → ys !! i = Some NaN) ∧
    rolling_mean 5 [Qn 1; Qn 2; NaN; Qn 4; Qn 5; Qn 6; Qn 7; Qn 8] =
      [NaN; NaN; NaN; NaN; NaN; NaN; NaN; Qn 6].
Proof.
  apply (rolling_propagates_nan minutes3 minutes3_out
           (mkSession (Ok minutes3) 1 [] ∅) "SUCCESS_RATE" "_hourly_avg" 60).
  - exact minutes3_loaded.
  - unfold tracked_columns. in_list.
  - unfold rolling_windows. in_list.
Defined.

Lemma averaged_raw (df : DataFrame) (tx su fa sr : list Float) (k : string) :
  k ∈ ["DATETIME"; "TX_COUNT"; "SUCCESS"; "FAILS"; "SUCCESS_RATE"] →
  columns (averaged df tx su fa sr) !! k = columns df !! k.
Proof. intros Hk. elem_cases Hk; frame_lookup; reflexivity. Qed.

(** C6, as stated, fails: [load_data] can return a row whose total count is
    0 and whose success ratio is 0.  The ratio is a fetched column, not
    computed from the counts. *)
Lemma zero_total_ratio_not_forced :
  ¬ (∀ (df out : DataFrame) (s' : Session) (tx sr : list Float) (i : nat),
       load_data (boot (Ok df)) = (Ok out, s') →
       columns out !! "TX_COUNT" = Some (NumCol tx) →
       columns out !! "SUCCESS_RATE" = Some (NumCol sr) →
       tx !! i = Some (Qn 0) →
       sr !! i = Some NaN).
Proof.
  intros H.
  specialize (H minutes3_zero
    (averaged minutes3_zero (Qn <$> [60; 120; 0]%Z) (Qn <$> [60; 60; 0]%Z)
       (Qn <$> [0; 60; 0]%Z) [Qn 1; Qfrac 1 2; Qn 0])
    (mkSession (Ok minutes3_zero) 1 [] ∅)
    (Qn <$> [60; 120; 0]%Z) [Qn 1; Qfrac 1 2; Qn 0] 2%nat).
  assert (Some (Qn 0) = Some NaN) as [=]. apply H.
  - apply load_data_Ok. exists minutes3_zero. split; [done|]. split; [|done].
    apply create_averages_Ok. eexists _, _, _, _. repeat split; reflexivity.
  - rewrite averaged_raw by in_list. reflexivity.
  - rewrite averaged_raw by in_list. reflexivity.
  - reflexivity.
Qed.

(** C6, amended.  The success ratio column returned by [load_data] is the
    fetched one, unchanged: a row is NaN there exactly when it was fetched
    as NaN, whatever its counts.  For total counts [60, 120, 0], success
    counts [60, 60, 0] and fetched ratios [1, 1/2, NaN] the per-second total
    rates are [1, 2, 0], the per-second success rates [1, 1, 0] and the
    ratios [1, 1/2, NaN]. *)
Theorem success_ratio_passed_through (df out : DataFrame) (s' : Session) :
  load_data (boot (Ok df)) = (Ok out, s') →
  columns out !! "SUCCESS_RATE" = columns df !! "SUCCESS_RATE" ∧
  (∀ sr sr' i,
     columns df !! "SUCCESS_RATE" = Some (NumCol sr) →
     columns out !! "SUCCESS_RATE" = Some (NumCol sr') →
     (sr' !! i = Some NaN ↔ sr !! i = Some NaN)) ∧
  load_data (boot (Ok minutes3)) =
    (Ok minutes3_out, mkSession (Ok minutes3) 1 [] ∅) ∧
  columns minutes3 !! "TX_COUNT" = Some (NumCol [Qn 60; Qn 120; Qn 0]) ∧
  columns minutes3 !! "SUCCESS" = Some (NumCol [Qn 60; Qn 60; Qn 0]) ∧
  columns minutes3_out !! "TX_COUNT_per_second" =
    Some (NumCol [Qn 1; Qn 2; Qn 0]) ∧
  columns minutes3_out !! "SUCCESS_per_second" =
    Some (NumCol [Qn 1; Qn 1; Qn 0]) ∧
  columns minutes3_out !! "SUCCESS_RATE" =
    Some (NumCol [Qn 1; Qfrac 1 2; NaN]).
Proof.
  intros (df' & [= <-] & (tx & su & fa & sr & _ & _ & _ & Hsr & ->)%create_averages_Ok & _)%load_data_Ok.
  assert (columns (averaged df tx su fa sr) !! "SUCCESS_RATE" =
          columns df !! "SUCCESS_RATE") as Heq
    by (apply averaged_raw; in_list).
  split; [done|]. split.
  { intros sr1 sr2 i H1 H2. rewrite Heq, H1 in H2. by injection H2 as <-. }
  split; [exact minutes3_loaded|].
  repeat split; by_evaluation.
Qed.

Lemma success_ratio_passed_through_witness :
  columns minutes3_out !! "SUCCESS_RATE" = columns minutes3 !! "SUCCESS_RATE".
Proof.
  apply (success_ratio_passed_through minutes3 minutes3_out
           (mkSession (Ok minutes3) 1 [] ∅)).
  exact minutes3_loaded.
Defined.

(** ** The script never writes to [df] after loading it *)

Lemma keeps_bind (x : string) {A B : Type} (c : App A) (f : A → App B) :
  keeps x c → (∀ a, keeps x (f a)) → keeps x (c ≫= f).
Proof.
  intros Hc Hf s r s'. unfold mbind, app_bind.
  destruct (c s) as [[a|e] s1] eqn:Hcs; intros H.
  - rewrite (Hf a _ _ _ H). exact (Hc _ _ _ Hcs).
  - injection H as <- <-. exact (Hc _ _ _ Hcs).
Qed.

Lemma keeps_lift (x : string) {A : Type} (r : result A) : keeps x (lift r).
Proof. by intros s r' s' [= <- <-]. Qed.

Lemma keeps_st (x : string) (w : Widget) : keeps x (st w).
Proof. by intros s r' s' [= <- <-]. Qed.

Lemma keeps_var (x y : string) : keeps x (var y).
Proof. by intros s r' s' [= <- <-]. Qed.

Lemma keeps_assign (x y : string) (d : DataFrame) :
  y ≠ x → keeps x (assign y d).
Proof. intros Hne s r' s' [= <- <-]. simpl. by apply lookup_insert_ne. Qed.

Create HintDb keeps.
#[local] Hint Resolve keeps_lift keeps_st keeps_var : keeps.
#[local] Hint Extern 1 (keeps _ (assign _ _)) =>
  apply keeps_assign; discriminate : keeps.
#[local] Hint Extern 2 (keeps _ (_ ≫= _)) =>
  apply keeps_bind; [|intros] : keeps.

Lemma line_chart_keeps_df (cols : list string) (names : list (string * string)) :
  keeps "df" (line_chart cols names).
Proof. unfold line_chart. auto 30 with keeps. Qed.

Lemma page_keeps_df (rank_corr : list Qc → list Qc → FloatR * FloatR) :
  keeps "df" (page rank_corr).
Proof.
  unfold page.
  repeat first
    [ apply line_chart_keeps_df
    | apply keeps_bind; [|intros]
    | solve [auto with keeps] ].
Qed.

Lemma averaged_other (df : DataFrame) (tx su fa sr : list Float) (k : string) :
  k ∉ derived_columns →
  columns (averaged df tx su fa sr) !! k = columns df !! k.
Proof.
  intros Hk. vm_compute in Hk.
  cbn [columns setitem with_rolling rolling_windows foldl fst snd
       String.append averaged].
  repeat (rewrite lookup_insert_ne;
          [|intros <-; apply Hk; in_list]).
  reflexivity.
Qed.

(** C10.  [load_data] only adds columns: the index and every column other
    than the 23 derived names, in particular the five fetched ones, come out
    exactly as fetched; and whatever the rest of the script does (summary,
    charts, resampling, correlation), the variable [df] still holds that
    frame when the run ends. *)
Theorem fetched_columns_unchanged
    (rank_corr : list Qc → list Qc → FloatR * FloatR)
    (df out : DataFrame) (s0 : Session) :
  load_data (boot (Ok df)) = (Ok out, s0) →
  index out = index df ∧
  (∀ k, k ∈ raw_columns → columns out !! k = columns df !! k) ∧
  (∀ k, k ∉ derived_columns → columns out !! k = columns df !! k) ∧
  (∀ r s, main rank_corr (boot (Ok df)) = (r, s) →
          frames s !! "df" = Some out).
Proof.
  intros Hload.
  pose proof Hload as (df' & [= <-] & (tx & su & fa & sr & _ & _ & _ & _ & ->)%create_averages_Ok & ->)%load_data_Ok.
  split; [reflexivity|].
  split; [intros k Hk; by apply averaged_raw|].
  split; [intros k Hk; by apply averaged_other|].
  intros r s. unfold main, mbind at 1, app_bind. rewrite Hload.
  unfold mbind at 1, app_bind. cbn [assign].
  intros Hpage. rewrite (page_keeps_df rank_corr _ _ _ Hpage).
  cbn [frames]. apply lookup_insert_eq.
Qed.

Lemma fetched_columns_unchanged_witness :
  index minutes3_out = index minutes3 ∧
  (∀ k, k ∈ raw_columns → columns minutes3_out !! k = columns minutes3 !! k) ∧
  (∀ k, k ∉ derived_columns →
        columns minutes3_out !! k = columns minutes3 !! k) ∧
  (∀ r s, main (λ _ _, (None, None)) (boot (Ok minutes3)) = (r, s) →
          frames s !! "df" = Some minutes3_out).
Proof.
  apply (fetched_columns_unchanged (λ _ _, (None, None)) minutes3 minutes3_out
           (mkSession (Ok minutes3) 1 [] ∅)).
  exact minutes3_loaded.
Defined.

(** C9.  When the fetch (or the parse of its answer) fails, the run ends with
    that failure, uncaught; nothing has been rendered, no script variable has
    been bound, and exactly one request was sent. *)
Theorem fetch_failure_is_fatal
    (rank_corr : list Qc → list Qc → FloatR * FloatR) (e : Exn) :
  main rank_corr (boot (Raise e)) =
    (Raise e, mkSession (Raise e) 1 [] ∅) ∧
  screen (main rank_corr (boot (Raise e))).2 = [] ∧
  frames (main rank_corr (boot (Raise e))).2 = ∅ ∧
  fetches (main rank_corr (boot (Raise e))).2 = 1%nat.
Proof. repeat split. Qed.

(** ** Summary statistics *)

Lemma summary_mean_col (df : DataFrame) (k : string) (xs : list Float) :
  columns df !! k = Some (NumCol xs) → summary_mean df k = Ok (series_mean xs).
Proof. intros H. unfold summary_mean, getitem. by rewrite H. Qed.

Lemma summary_sem_col (df : DataFrame) (k : string) (xs : list Float) :
  columns df !! k = Some (NumCol xs) →
  summary_sem df k = Ok ((λ s, s / np_sqrt (len df))%R <$> series_std xs).
Proof. intros H. unfold summary_sem, getitem. by rewrite H. Qed.

Lemma series_mean_full (xs : list Float) :
  length (dropna xs) = length xs → series_mean xs = amean xs.
Proof.
  intros Hfull. unfold series_mean, amean.
  rewrite (fsum_full _ Hfull).
  destruct xs as [|x xs'] eqn:E; [reflexivity|]. rewrite <- E in *.
  destruct (dropna xs) as [|o obs] eqn:Eo.
  - rewrite E in Hfull. simpl in Hfull. lia.
  - rewrite Hfull. reflexivity.
Qed.

Lemma squares_Some (m : Qc) (obs : list Qc) :
  fsum ((λ x, fmul (fsub x (Some m)) (fsub x (Some m))) <$> (Some <$> obs)) =
  Some (Qcsum ((λ x, (x - m) * (x - m)) <$> obs)).
Proof.
  induction obs as [|x obs IH]; csimpl; [reflexivity|].
  unfold fsum in *. simpl. rewrite IH. reflexivity.
Qed.

Lemma squares_full (m : Qc) (xs : list Float) :
  length (dropna xs) = length xs →
  fsum ((λ x, fmul (fsub x (Some m)) (fsub x (Some m))) <$> xs) =
  Some (Qcsum ((λ x, (x - m) * (x - m)) <$> dropna xs)).
Proof.
  intros Hfull. rewrite <- squares_Some.
  f_equal. f_equal. by apply dropna_full.
Qed.

Lemma series_var_full (xs : list Float) :
  length (dropna xs) = length xs → series_var xs = direct_var xs.
Proof.
  intros Hfull. unfold series_var, direct_var. rewrite Hfull.
  case_bool_decide as Hn; [reflexivity|].
  rewrite <- (series_mean_full _ Hfull). unfold series_mean.
  destruct (dropna xs) as [|o obs] eqn:Eo; [simpl in Hfull; lia|].
  rewrite <- Eo in *. clear Eo o obs.
  rewrite (squares_full _ _ Hfull), Hfull. reflexivity.
Qed.

Lemma series_mean_obs (xs : list Float) :
  series_mean xs =
    if decide (length (dropna xs) = 0)%nat then NaN
    else Some (Qcsum (dropna xs) / Qc_of_nat (length (dropna xs))).
Proof. unfold series_mean. by destruct (dropna xs). Qed.

Lemma series_std_obs (xs : list Float) :
  let obs := dropna xs in
  let n := length obs in
  let m := Qcsum obs / Qc_of_nat n in
  let v := Qcsum ((λ x, (x - m) * (x - m)) <$> obs) / Qc_of_nat (n - 1) in
  series_std xs =
    if decide (n ≤ 1)%nat then None else Some (sqrt (Q2R v)).
Proof.
  intros obs n m v. unfold series_std, series_var. fold obs n m.
  case_bool_decide; case_decide; try lia; reflexivity.
Qed.

Lemma minutes3_ratio_var :
  series_var [Qn 1; Qfrac 1 2; NaN] = Some (Q2Qc (1 # 8)).
Proof. by_evaluation. Qed.

Lemma minutes3_ratio_column :
  columns minutes3_out !! "SUCCESS_RATE" = Some (NumCol [Qn 1; Qfrac 1 2; NaN]).
Proof. by_evaluation. Qed.

Lemma minutes3_ratio_mean :
  summary_mean minutes3_out "SUCCESS_RATE" = Ok (Qfrac 3 4).
Proof. rewrite (summary_mean_col _ _ _ minutes3_ratio_column). f_equal. Qed.

Lemma minutes3_ratio_sem :
  summary_sem minutes3_out "SUCCESS_RATE" =
    Ok (Some (sqrt (Q2R (1 # 8)) / sqrt (INR 3))%R).
Proof.
  rewrite (summary_sem_col _ _ _ minutes3_ratio_column). unfold series_std.
  rewrite minutes3_ratio_var. reflexivity.
Qed.

Lemma averaged_len (df : DataFrame) (tx su fa sr : list Float) :
  len (averaged df tx su fa sr) = len df.
Proof. reflexivity. Qed.

(** The six numbers of the first narrative, for a loaded frame. *)
Lemma average_tps_averaged (df : DataFrame) (tx su fa sr : list Float) :
  columns df !! "SUCCESS_RATE" = Some (NumCol sr) →
  average_tps (averaged df tx su fa sr) =
    Ok [to_R (series_mean (per_second tx));
        (λ s, s / np_sqrt (len df))%R <$> series_std (per_second tx);
        to_R (series_mean (per_second su));
        (λ s, s / np_sqrt (len df))%R <$> series_std (per_second su);
        scale 100 (to_R (series_mean sr));
        scale 100 ((λ s, s / np_sqrt (len df))%R <$> series_std sr)].
Proof.
  intros Hsr. destruct (averaged_rates df tx su fa sr) as (H1 & H2 & _).
  assert (columns (averaged df tx su fa sr) !! "SUCCESS_RATE" = Some (NumCol sr))
    as H3 by (rewrite averaged_raw by in_list; done).
  unfold average_tps.
  rewrite (summary_mean_col _ _ _ H1), (summary_sem_col _ _ _ H1),
    (summary_mean_col _ _ _ H2), (summary_sem_col _ _ _ H2),
    (summary_mean_col _ _ _ H3), (summary_sem_col _ _ _ H3).
  rewrite averaged_len. reflexivity.
Qed.

Lemma minutes3_rate_stats :
  series_mean (per_second (Qn <$> [60; 120; 0]%Z)) = Qn 1 ∧
  series_var (per_second (Qn <$> [60; 120; 0]%Z)) = Qn 1 ∧
  series_mean (per_second (Qn <$> [60; 60; 0]%Z)) = Qfrac 2 3 ∧
  series_var (per_second (Qn <$> [60; 60; 0]%Z)) = Qfrac 1 3 ∧
  series_mean [Qn 1; Qfrac 1 2; NaN] = Qfrac 3 4.
Proof. repeat split; by_evaluation. Qed.

(** The first narrative on [minutes3]: 1 ± 1/sqrt 3 transactions per second,
    2/3 ± sqrt(1/3)/sqrt 3 successful ones, and a success ratio of
    75 ± 100 sqrt(1/8)/sqrt 3 per cent. *)
Lemma minutes3_narrative :
  average_tps minutes3_out =
    Ok [Some (Q2R (1 # 1)); Some (sqrt (Q2R (1 # 1)) / sqrt (INR 3))%R;
        Some (Q2R (2 # 3)); Some (sqrt (Q2R (1 # 3)) / sqrt (INR 3))%R;
        Some (Q2R (3 # 4) * 100)%R;
        Some (sqrt (Q2R (1 # 8)) / sqrt (INR 3) * 100)%R].
Proof.
  unfold minutes3_out. rewrite average_tps_averaged by reflexivity.
  destruct minutes3_rate_stats as (M1 & V1 & M2 & V2 & M3).
  unfold series_std. rewrite M1, V1, M2, V2, M3, minutes3_ratio_var.
  reflexivity.
Qed.

(** C8.  For the success ratio the mean and the error the first narrative
    reports (both times 100, fifth and sixth of its six numbers) range over
    the defined entries only (NaN entries are dropped, not read as 0), the
    deviation is the sample one (divisor [n-1]), and the standard error
    divides by the square root of the number of rows of the whole frame.
    With ratios [1, 1/2, NaN] the mean is 3/4 and the error is
    [sqrt(1/8) / sqrt 3]: two defined entries, three rows. *)
Theorem success_ratio_summary (df out : DataFrame) (s' : Session)
    (sr : list Float) :
  load_data (boot (Ok df)) = (Ok out, s') →
  columns df !! "SUCCESS_RATE" = Some (NumCol sr) →
  let obs := dropna sr in
  let n := length obs in
  let m := Qcsum obs / Qc_of_nat n in
  let v := Qcsum ((λ x, (x - m) * (x - m)) <$> obs) / Qc_of_nat (n - 1) in
  let mean := if decide (n = 0)%nat then NaN else Some m in
  let sem := if decide (n ≤ 1)%nat then None
             else Some (sqrt (Q2R v) / sqrt (INR (len df)))%R in
  summary_mean out "SUCCESS_RATE" = Ok mean ∧
  summary_sem out "SUCCESS_RATE" = Ok sem ∧
  (∃ m1 e1 m2 e2,
     average_tps out =
       Ok [m1; e1; m2; e2; scale 100 (to_R mean); scale 100 sem]) ∧
  summary_mean minutes3_out "SUCCESS_RATE" = Ok (Qfrac 3 4) ∧
  summary_sem minutes3_out "SUCCESS_RATE" =
    Ok (Some (sqrt (Q2R (1 # 8)) / sqrt (INR 3))%R) ∧
  (∃ m1 e1 m2 e2,
     average_tps minutes3_out =
       Ok [m1; e1; m2; e2; Some (Q2R (3 # 4) * 100)%R;
           Some (sqrt (Q2R (1 # 8)) / sqrt (INR 3) * 100)%R]) ∧
  len minutes3 = 3%nat ∧
  length (dropna [Qn 1; Qfrac 1 2; NaN]) = 2%nat.
Proof.
  intros Hload Hsr obs n m v mean sem.
  pose proof Hload as (df' & [= <-] & (tx & su & fa & sr' & _ & _ & _ & Hsr' & ->)%create_averages_Ok & _)%load_data_Ok.
  assert (sr' = sr) as -> by congruence.
  assert (columns (averaged df tx su fa sr) !! "SUCCESS_RATE" = Some (NumCol sr))
    as Hout by (rewrite averaged_raw by in_list; done).
  assert (series_mean sr = mean) as Hmean by apply series_mean_obs.
  assert ((λ s, s / np_sqrt (len df))%R <$> series_std sr = sem) as Hsem.
  { rewrite (series_std_obs sr). fold obs n m v. unfold sem.
    case_decide; reflexivity. }
  split.
  { rewrite (summary_mean_col _ _ _ Hout). by f_equal. }
  split.
  { rewrite (summary_sem_col _ _ _ Hout), averaged_len. by f_equal. }
  split.
  { rewrite (average_tps_averaged df tx su fa sr Hsr), Hmean, Hsem.
    by eexists _, _, _, _. }
  split; [exact minutes3_ratio_mean|].
  split; [exact minutes3_ratio_sem|].
  split; [rewrite minutes3_narrative; by eexists _, _, _, _|].
  split; reflexivity.
Qed.

Lemma success_ratio_summary_witness :
  summary_mean minutes3_out "SUCCESS_RATE" = Ok (Qfrac 3 4) ∧
  summary_sem minutes3_out "SUCCESS_RATE" =
    Ok (Some (sqrt (Q2R (1 # 8)) / sqrt (INR 3))%R) ∧
  ∃ m1 e1 m2 e2,
    average_tps minutes3_out =
      Ok [m1; e1; m2; e2; Some (Q2R (3 # 4) * 100)%R;
          Some (sqrt (Q2R (1 # 8)) / sqrt (INR 3) * 100)%R].
Proof.
  pose proof (success_ratio_summary minutes3 minutes3_out
                (mkSession (Ok minutes3) 1 [] ∅) [Qn 1; Qfrac 1 2; NaN]
                minutes3_loaded eq_refl) as H.
  cbv zeta in H. destruct H as (_ & _ & _ & Hm & Hs & Hn & _).
  exact (conj Hm (conj Hs Hn)).
Defined.

Lemma sqrt_eighth_pos : (0 < sqrt (Q2R (1 # 8)))%R.
Proof. apply sqrt_lt_R0. unfold Q2R. simpl. lra. Qed.

(** C3, as stated, fails on a series with an undefined entry.  With success
    ratios [1, 1/2, NaN] the reported mean is 3/4 while [sum/n] over the
    three cells is NaN; and even reading the sum over the defined cells only,
    no single [n] gives both the reported mean (which needs [n = 2]) and the
    reported error (which needs [n = 3]). *)
Lemma summary_not_direct_recomputation :
  ¬ (∀ (df out : DataFrame) (s' : Session) (k : string) (xs : list Float),
       load_data (boot (Ok df)) = (Ok out, s') →
       k ∈ daily_columns →
       columns out !! k = Some (NumCol xs) →
       summary_mean out k = Ok (amean xs) ∧
       summary_sem out k = Ok (direct_sem xs)) ∧
  ¬ (∃ n : nat,
       summary_mean minutes3_out "SUCCESS_RATE" =
         Ok (Some (Qcsum (dropna [Qn 1; Qfrac 1 2; NaN]) / Qc_of_nat n)) ∧
       summary_sem minutes3_out "SUCCESS_RATE" =
         Ok (Some (sqrt (Q2R (1 # 8)) / sqrt (INR n))%R)).
Proof.
  split.
  - intros H.
    destruct (H minutes3 minutes3_out (mkSession (Ok minutes3) 1 [] ∅)
                "SUCCESS_RATE" [Qn 1; Qfrac 1 2; NaN] minutes3_loaded)
      as [Hm _]; [unfold daily_columns; in_list | exact minutes3_ratio_column |].
    rewrite minutes3_ratio_mean in Hm. discriminate Hm.
  - intros (n & Hm & Hs).
    rewrite minutes3_ratio_sem in Hs. injection Hs as Hs.
    pose proof sqrt_eighth_pos as Hpos.
    apply Rmult_eq_reg_l in Hs; [|lra].
    assert (n = 3%nat) as ->.
    { destruct n as [|n'].
      - exfalso. simpl in Hs. rewrite sqrt_0, Rinv_0 in Hs.
        assert (0 < / sqrt (1 + 1 + 1))%R; [|lra].
        apply Rinv_0_lt_compat, sqrt_lt_R0. lra.
      - apply Rinv_eq_reg in Hs. apply sqrt_inj in Hs; [|lra|apply pos_INR].
        replace (1 + 1 + 1)%R with (INR 3) in Hs by (simpl; lra).
        by apply INR_eq in Hs. }
    rewrite minutes3_ratio_mean in Hm.
    assert (Qfrac 3 4 ≠
            Some (Qcsum (dropna [Qn 1; Qfrac 1 2; NaN]) / Qc_of_nat 3)) as Hne
      by by_evaluation.
    apply Hne. by injection Hm.
Qed.

Lemma averaged_daily_numeric (df : DataFrame) (tx su fa sr : list Float)
    (k : string) :
  columns df !! "SUCCESS_RATE" = Some (NumCol sr) →
  k ∈ daily_columns →
  ∃ xs, columns (averaged df tx su fa sr) !! k = Some (NumCol xs).
Proof.
  intros Hsr Hk. destruct (averaged_rates df tx su fa sr) as (H1 & H2 & _).
  unfold daily_columns in Hk. elem_cases Hk; [by eexists..|].
  exists sr. rewrite averaged_raw by in_list. done.
Qed.

Lemma direct_sem_full (xs : list Float) :
  length (dropna xs) = length xs →
  direct_sem xs = (λ s, s / np_sqrt (length xs))%R <$> series_std xs.
Proof.
  intros Hfull. unfold direct_sem, series_std.
  rewrite (series_var_full _ Hfull). by destruct (direct_var xs).
Qed.

(** C3, amended.  For each of total rate, success rate and success ratio
    the reported mean is the sum of the defined values over their number,
    and the reported error is their sample standard deviation over the
    square root of the number of rows of the frame.  When the series has no
    undefined value (and, as in any frame, one cell per row) both are the
    direct recomputation [sum/n] and [stddev/sqrt(n)] over its [n] cells.
    The first narrative prints these six numbers in this order, the two of
    the success ratio times 100. *)
Theorem summary_statistics (df out : DataFrame) (s' : Session) :
  load_data (boot (Ok df)) = (Ok out, s') →
  (∀ k, k ∈ daily_columns →
     ∃ xs,
       columns out !! k = Some (NumCol xs) ∧
       let obs := dropna xs in
       let n := length obs in
       let m := Qcsum obs / Qc_of_nat n in
       let v := Qcsum ((λ x, (x - m) * (x - m)) <$> obs) / Qc_of_nat (n - 1) in
       summary_mean out k = Ok (if decide (n = 0)%nat then NaN else Some m) ∧
       summary_sem out k =
         Ok (if decide (n ≤ 1)%nat then None
             else Some (sqrt (Q2R v) / sqrt (INR (len out)))%R) ∧
       (n = length xs → length xs = len out →
        summary_mean out k = Ok (amean xs) ∧
        summary_sem out k = Ok (direct_sem xs))) ∧
  (∃ m1 e1 m2 e2 m3 e3,
     summary_mean out "TX_COUNT_per_second" = Ok m1 ∧
     summary_sem out "TX_COUNT_per_second" = Ok e1 ∧
     summary_mean out "SUCCESS_per_second" = Ok m2 ∧
     summary_sem out "SUCCESS_per_second" = Ok e2 ∧
     summary_mean out "SUCCESS_RATE" = Ok m3 ∧
     summary_sem out "SUCCESS_RATE" = Ok e3 ∧
     average_tps out =
       Ok [to_R m1; e1; to_R m2; e2; scale 100 (to_R m3); scale 100 e3]).
Proof.
  intros (df' & [= <-] & (tx & su & fa & sr & _ & _ & _ & Hsr & ->)%create_averages_Ok & _)%load_data_Ok.
  split.
  - intros k Hk.
    destruct (averaged_daily_numeric df tx su fa sr k Hsr Hk) as (xs & Hxs).
    exists xs. split; [done|]. intros obs n m v.
    rewrite (summary_mean_col _ _ _ Hxs), (summary_sem_col _ _ _ Hxs).
    split; [f_equal; apply series_mean_obs|].
    split.
    { f_equal. rewrite (series_std_obs xs). fold obs n m v.
      case_decide; reflexivity. }
    intros Hfull Hlen. split.
    + f_equal. by apply series_mean_full.
    + f_equal. rewrite direct_sem_full by done. by rewrite Hlen.
  - destruct (averaged_rates df tx su fa sr) as (H1 & H2 & _).
    assert (columns (averaged df tx su fa sr) !! "SUCCESS_RATE" =
            Some (NumCol sr)) as H3 by (rewrite averaged_raw by in_list; done).
    eexists _, _, _, _, _, _.
    split; [exact (summary_mean_col _ _ _ H1)|].
    split; [exact (summary_sem_col _ _ _ H1)|].
    split; [exact (summary_mean_col _ _ _ H2)|].
    split; [exact (summary_sem_col _ _ _ H2)|].
    split; [exact (summary_mean_col _ _ _ H3)|].
    split; [exact (summary_sem_col _ _ _ H3)|].
    rewrite averaged_len. by apply average_tps_averaged.
Qed.

Lemma summary_statistics_witness :
  (∃ xs,
     columns minutes3_out !! "TX_COUNT_per_second" = Some (NumCol xs) ∧
     summary_mean minutes3_out "TX_COUNT_per_second" = Ok (amean xs) ∧
     summary_sem minutes3_out "TX_COUNT_per_second" = Ok (direct_sem xs)) ∧
  ∃ m1 e1 m2 e2 m3 e3,
    summary_mean minutes3_out "TX_COUNT_per_second" = Ok m1 ∧
    summary_sem minutes3_out "TX_COUNT_per_second" = Ok e1 ∧
    summary_mean minutes3_out "SUCCESS_per_second" = Ok m2 ∧
    summary_sem minutes3_out "SUCCESS_per_second" = Ok e2 ∧
    summary_mean minutes3_out "SUCCESS_RATE" = Ok m3 ∧
    summary_sem minutes3_out "SUCCESS_RATE" = Ok e3 ∧
    average_tps minutes3_out =
      Ok [to_R m1; e1; to_R m2; e2; scale 100 (to_R m3); scale 100 e3].
Proof.
  destruct (summary_statistics minutes3 minutes3_out
              (mkSession (Ok minutes3) 1 [] ∅) minutes3_loaded)
    as (Hk & Hnarr).
  split; [|exact Hnarr].
  destruct (Hk "TX_COUNT_per_second") as (xs & Hxs & H).
  - unfold daily_columns. in_list.
  - cbv zeta in H. destruct H as (_ & _ & H).
    exists xs. split; [exact Hxs|]. apply H.
    + pose proof (averaged_rates minutes3 (Qn <$> [60; 120; 0]%Z)
                    (Qn <$> [60; 60; 0]%Z) (Qn <$> [0; 60; 0]%Z)
                    [Qn 1; Qfrac 1 2; NaN]) as (H1 & _).
      fold minutes3_out in H1. rewrite H1 in Hxs. injection Hxs as <-.
      reflexivity.
    + pose proof (averaged_rates minutes3 (Qn <$> [60; 120; 0]%Z)
                    (Qn <$> [60; 60; 0]%Z) (Qn <$> [0; 60; 0]%Z)
                    [Qn 1; Qfrac 1 2; NaN]) as (H1 & _).
      fold minutes3_out in H1. rewrite H1 in Hxs. injection Hxs as <-.
      reflexivity.
Defined.

(** ** The daily table *)

Lemma mean_daily_Ok (out : DataFrame) (ts : list Z) (tps suc rate : list Float) :
  columns out !! "DATETIME" = Some (TimeCol ts) →
  columns out !! "TX_COUNT_per_second" = Some (NumCol tps) →
  columns out !! "SUCCESS_per_second" = Some (NumCol suc) →
  columns out !! "SUCCESS_RATE" = Some (NumCol rate) →
  mean_daily out = Ok (daily_table ts tps suc rate).
Proof.
  intros Hts Htps Hsuc Hrate.
  unfold mean_daily, resample_mean, getitem. rewrite Hts. simpl.
  unfold select, daily_columns, select_columns, getitem. cbn [columns].
  rewrite !lookup_omap, !lookup_delete_ne by discriminate.
  rewrite Htps, Hsuc, Hrate. reflexivity.
Qed.

Lemma daily_table_columns (ts : list Z) (tps suc rate : list Float) :
  index (daily_table ts tps suc rate) = daily_index ts ∧
  columns (daily_table ts tps suc rate) !! "date" = Some (daily_index ts) ∧
  columns (daily_table ts tps suc rate) !! "Mean TPS" =
    Some (NumCol (resample_mean_col ts tps)) ∧
  columns (daily_table ts tps suc rate) !! "Mean Successful TPS" =
    Some (NumCol (resample_mean_col ts suc)) ∧
  columns (daily_table ts tps suc rate) !! "Mean Success Rate" =
    Some (NumCol (resample_mean_col ts rate)).
Proof.
  unfold daily_table.
  generalize (resample_mean_col ts tps) (resample_mean_col ts suc)
    (resample_mean_col ts rate) (daily_index ts).
  intros a b c i. repeat split; vm_compute; reflexivity.
Qed.

Lemma mean_daily_inv (out md : DataFrame) :
  mean_daily out = Ok md →
  ∃ ts, columns out !! "DATETIME" = Some (TimeCol ts).
Proof.
  unfold mean_daily, resample_mean, getitem.
  destruct (columns out !! "DATETIME") as [[xs|ts]|]; simpl; try discriminate.
  intros _. by exists ts.
Qed.

Lemma foldr_min_le (d : Z) (l : list Z) :
  (foldr Z.min d l ≤ d)%Z ∧ ∀ x, x ∈ l → (foldr Z.min d l ≤ x)%Z.
Proof.
  induction l as [|a l [IH1 IH2]]; simpl.
  - split; [lia|]. intros x Hx. inversion Hx.
  - split; [lia|]. intros x [->|Hx]%elem_of_cons; [lia|].
    specialize (IH2 x Hx). lia.
Qed.

Lemma foldr_max_ge (d : Z) (l : list Z) :
  (d ≤ foldr Z.max d l)%Z ∧ ∀ x, x ∈ l → (x ≤ foldr Z.max d l)%Z.
Proof.
  induction l as [|a l [IH1 IH2]]; simpl.
  - split; [lia|]. intros x Hx. inversion Hx.
  - split; [lia|]. intros x [->|Hx]%elem_of_cons; [lia|].
    specialize (IH2 x Hx). lia.
Qed.

(** Each calendar day appears once, and every record's day appears. *)
Lemma days_NoDup (ts : list Z) : NoDup (days ts).
Proof. destruct ts; [constructor | apply NoDup_seqZ]. Qed.

Lemma days_cover (ts : list Z) (t : Z) : t ∈ ts → day_of t ∈ days ts.
Proof.
  destruct ts as [|t0 ts']; [by intros ?%elem_of_nil|].
  intros Ht. unfold days. apply elem_of_seqZ.
  destruct (foldr_min_le (day_of t0) (day_of <$> ts')) as [Hlo1 Hlo2].
  destruct (foldr_max_ge (day_of t0) (day_of <$> ts')) as [Hhi1 Hhi2].
  apply elem_of_cons in Ht as [->|Ht]; [lia|].
  assert (day_of t ∈ day_of <$> ts') as Hd by (by apply list_elem_of_fmap_2).
  specialize (Hlo2 _ Hd). specialize (Hhi2 _ Hd). lia.
Qed.

Lemma rows_of_day_none (d : Z) (ts : list Z) (xs : list Float) :
  d ∉ day_of <$> ts → rows_of_day d ts xs = [].
Proof.
  revert xs. induction ts as [|t ts IH]; intros xs Hd; [reflexivity|].
  destruct xs as [|x xs]; [reflexivity|]. simpl.
  rewrite fmap_cons, not_elem_of_cons in Hd. destruct Hd as [Hne Hd].
  rewrite decide_False by done. by apply IH.
Qed.

Lemma resample_mean_col_lookup (ts : list Z) (xs : list Float) (j : nat) (d : Z) :
  days ts !! j = Some d →
  resample_mean_col ts xs !! j = Some (series_mean (rows_of_day d ts xs)).
Proof. intros Hd. unfold resample_mean_col. by rewrite list_lookup_fmap, Hd. Qed.

Lemma resample_mean_col_length (ts : list Z) (xs : list Float) :
  length (resample_mean_col ts xs) = length (days ts).
Proof. unfold resample_mean_col. by rewrite length_fmap. Qed.

(** What one cell of the daily table holds. *)
Lemma daily_cell (ts : list Z) (xs : list Float) (j : nat) (d : Z) :
  days ts !! j = Some d →
  let rows := rows_of_day d ts xs in
  let obs := dropna rows in
  resample_mean_col ts xs !! j =
    Some (if decide (length obs = 0)%nat then NaN
          else Some (Qcsum obs / Qc_of_nat (length obs))) ∧
  (rows ≠ [] → length obs = length rows →
   resample_mean_col ts xs !! j = Some (amean rows)) ∧
  (d ∉ day_of <$> ts → resample_mean_col ts xs !! j = Some NaN).
Proof.
  intros Hd rows obs. rewrite (resample_mean_col_lookup _ _ _ _ Hd).
  fold rows. split; [f_equal; apply series_mean_obs|]. split.
  - intros _ Hfull. f_equal. by apply series_mean_full.
  - intros Hnone. unfold rows. by rewrite rows_of_day_none.
Qed.

Lemma minutes3_daily :
  mean_daily minutes3_out =
    Ok (daily_table [0; 60; 120]%Z
          (per_second (Qn <$> [60; 120; 0]%Z))
          (per_second (Qn <$> [60; 60; 0]%Z)) [Qn 1; Qfrac 1 2; NaN]).
Proof.
  destruct (averaged_rates minutes3 (Qn <$> [60; 120; 0]%Z)
              (Qn <$> [60; 60; 0]%Z) (Qn <$> [0; 60; 0]%Z)
              [Qn 1; Qfrac 1 2; NaN]) as (H1 & H2 & _).
  apply mean_daily_Ok; try done; try exact minutes3_ratio_column.
  all: unfold minutes3_out; rewrite averaged_raw by in_list; reflexivity.
Qed.

(** C4, as stated, fails for a day with an undefined value: the single day of
    [minutes3] has three records with ratios [1, 1/2, NaN]; the table
    reports 3/4, the mean of the two defined values, while the arithmetic
    mean of the three rows' values is NaN. *)
Lemma daily_mean_skips_undefined :
  ¬ (∀ (df out md : DataFrame) (s' : Session) (ts : list Z)
       (xs ys : list Float) (j : nat) (d : Z),
       load_data (boot (Ok df)) = (Ok out, s') →
       mean_daily out = Ok md →
       columns out !! "DATETIME" = Some (TimeCol ts) →
       columns out !! "SUCCESS_RATE" = Some (NumCol xs) →
       columns md !! "Mean Success Rate" = Some (NumCol ys) →
       days ts !! j = Some d →
       rows_of_day d ts xs ≠ [] →
       ys !! j = Some (amean (rows_of_day d ts xs))).
Proof.
  intros H.
  specialize (H minutes3 minutes3_out _ _ [0; 60; 120]%Z
                [Qn 1; Qfrac 1 2; NaN] [Qfrac 3 4] 0%nat 0%Z
                minutes3_loaded minutes3_daily).
  assert (Some (Qfrac 3 4) = Some NaN) as [=]. apply H.
  - unfold minutes3_out. rewrite averaged_raw by in_list. reflexivity.
  - exact minutes3_ratio_column.
  - destruct (daily_table_columns [0; 60; 120]%Z
                (per_second (Qn <$> [60; 120; 0]%Z))
                (per_second (Qn <$> [60; 60; 0]%Z)) [Qn 1; Qfrac 1 2; NaN])
      as (_ & _ & _ & _ & ->).
    do 2 f_equal.
  - reflexivity.
  - discriminate.
Qed.

Lemma daily_names_cases (k k' : string) :
  (k, k') ∈ daily_names →
  (k = "TX_COUNT_per_second" ∧ k' = "Mean TPS") ∨
  (k = "SUCCESS_RATE" ∧ k' = "Mean Success Rate") ∨
  (k = "SUCCESS_per_second" ∧ k' = "Mean Successful TPS").
Proof.
  intros Hk. unfold daily_names in Hk.
  elem_cases Hk; injection Hk as -> ->; auto.
Qed.

(** C4, amended.  The daily table has one row per calendar day from the
    first to the last day with a record, keyed by the day (index and [date]
    column), and every record's day is among them.  For each of the three
    series the cell of a day is the mean of the defined values among that
    day's records: the arithmetic mean of all of them when none is NaN, and
    NaN (not zero) when the day has no record.  With records on day 0 and
    day 2 only, day 1 is present and NaN. *)
Theorem daily_means (df out md : DataFrame) (s' : Session) :
  load_data (boot (Ok df)) = (Ok out, s') →
  mean_daily out = Ok md →
  ∃ ts,
    columns out !! "DATETIME" = Some (TimeCol ts) ∧
    index md = daily_index ts ∧
    columns md !! "date" = Some (daily_index ts) ∧
    NoDup (days ts) ∧
    (∀ t, t ∈ ts → day_of t ∈ days ts) ∧
    (∀ k k', (k, k') ∈ daily_names →
       ∃ xs ys,
         columns out !! k = Some (NumCol xs) ∧
         columns md !! k' = Some (NumCol ys) ∧
         length ys = length (days ts) ∧
         ∀ j d, days ts !! j = Some d →
           let rows := rows_of_day d ts xs in
           let obs := dropna rows in
           ys !! j = Some (if decide (length obs = 0)%nat then NaN
                           else Some (Qcsum obs / Qc_of_nat (length obs))) ∧
           (rows ≠ [] → length obs = length rows →
            ys !! j = Some (amean rows)) ∧
           (d ∉ day_of <$> ts →
            ys !! j = Some NaN ∧ ys !! j ≠ Some (Qn 0))) ∧
    resample_mean_col [0; 172800]%Z [Qn 1; Qn 3] = [Qn 1; NaN; Qn 3].
Proof.
  intros Hload Hmd.
  destruct (mean_daily_inv _ _ Hmd) as (ts & Hts).
  pose proof Hload as (df' & [= <-] & (tx & su & fa & sr & _ & _ & _ & Hsr & ->)%create_averages_Ok & _)%load_data_Ok.
  destruct (averaged_rates df tx su fa sr) as (H1 & H2 & _).
  assert (columns (averaged df tx su fa sr) !! "SUCCESS_RATE" = Some (NumCol sr))
    as H3 by (rewrite averaged_raw by in_list; done).
  rewrite (mean_daily_Ok _ ts _ _ _ Hts H1 H2 H3) in Hmd. injection Hmd as <-.
  destruct (daily_table_columns ts (per_second tx) (per_second su) sr)
    as (Hi & Hd & Ha & Hb & Hc).
  exists ts. split; [done|]. split; [done|]. split; [done|].
  split; [apply days_NoDup|]. split; [apply days_cover|].
  split; [|by_evaluation].
  intros k k' Hk.
  assert (∀ xs, length (resample_mean_col ts xs) = length (days ts) ∧
            ∀ j d, days ts !! j = Some d →
              let rows := rows_of_day d ts xs in
              let obs := dropna rows in
              resample_mean_col ts xs !! j =
                Some (if decide (length obs = 0)%nat then NaN
                      else Some (Qcsum obs / Qc_of_nat (length obs))) ∧
              (rows ≠ [] → length obs = length rows →
               resample_mean_col ts xs !! j = Some (amean rows)) ∧
              (d ∉ day_of <$> ts →
               resample_mean_col ts xs !! j = Some NaN ∧
               resample_mean_col ts xs !! j ≠ Some (Qn 0))) as Hcells.
  { intros xs. split; [apply resample_mean_col_length|].
    intros j d Hj rows obs.
    destruct (daily_cell ts xs j d Hj) as (Hcell & Hfull & Hnone).
    split; [exact Hcell|]. split; [exact Hfull|].
    intros Hz. rewrite (Hnone Hz). split; [reflexivity|discriminate]. }
  destruct (daily_names_cases _ _ Hk) as [[-> ->]|[[-> ->]|[-> ->]]].
  - exists (per_second tx), (resample_mean_col ts (per_second tx)).
    split; [exact H1|]. split; [exact Ha|]. apply Hcells.
  - exists sr, (resample_mean_col ts sr).
    split; [exact H3|]. split; [exact Hc|]. apply Hcells.
  - exists (per_second su), (resample_mean_col ts (per_second su)).
    split; [exact H2|]. split; [exact Hb|]. apply Hcells.
Qed.

Lemma daily_means_witness :
  ∃ ts,
    columns minutes3_out !! "DATETIME" = Some (TimeCol ts) ∧
    NoDup (days ts) ∧
    (∀ t, t ∈ ts → day_of t ∈ days ts).
Proof.
  destruct (daily_means minutes3 minutes3_out _ _ minutes3_loaded minutes3_daily)
    as (ts & Hts & _ & _ & Hnd & Hcov & _).
  exists ts. auto.
Defined.

(** ** Rank correlations *)

Lemma valid_pairs_full (xs ys : list Float) :
  length xs = length ys →
  length (dropna xs) = length xs → length (dropna ys) = length ys →
  valid_pairs xs ys = length xs.
Proof.
  revert ys. induction xs as [|x xs IH]; intros [|y ys] Hlen Hx Hy;
    simpl in *; try done.
  pose proof (dropna_length_le xs). pose proof (dropna_length_le ys).
  destruct x as [x|], y as [y|]; simpl in *; try lia.
  f_equal. apply IH; lia.
Qed.

Lemma spearmanr_total (rank_corr : list Qc → list Qc → FloatR * FloatR)
    (xs ys : list Float) :
  length xs = length ys →
  ∃ t, spearmanr rank_corr (NumCol xs) (NumCol ys) = Ok t ∧
       ((valid_pairs xs ys < 2)%nat → t = (None, None)).
Proof.
  intros Hlen. unfold spearmanr. simpl.
  rewrite decide_False by (by intros []).
  case_decide as Hn; [by eexists|].
  destruct (has_nan xs || has_nan ys) eqn:Hnan; [by eexists|].
  eexists. split; [reflexivity|]. intros Hfew. exfalso.
  apply orb_false_elim in Hnan as [Hx Hy]. unfold has_nan in Hx, Hy.
  apply bool_decide_eq_false in Hx, Hy.
  rewrite valid_pairs_full in Hfew; [lia|done|..].
  - destruct (decide (length (dropna xs) = length xs)); done.
  - destruct (decide (length (dropna ys) = length ys)); done.
Qed.

(** Two complete samples of at least two observations go to the kernel. *)
Lemma spearmanr_complete (rank_corr : list Qc → list Qc → FloatR * FloatR)
    (xs ys : list Float) :
  length xs = length ys → (2 ≤ length xs)%nat → NaN ∉ xs → NaN ∉ ys →
  spearmanr rank_corr (NumCol xs) (NumCol ys) =
    Ok (rank_corr (dropna xs) (dropna ys)).
Proof.
  intros Hlen Hn Hx Hy. unfold spearmanr. simpl.
  destruct (nan_or_full xs) as [?|Hfx]; [done|].
  destruct (nan_or_full ys) as [?|Hfy]; [done|].
  rewrite decide_False by (by intros []).
  rewrite decide_False by lia.
  unfold has_nan. rewrite !bool_decide_eq_false_2 by (by intros []).
  reflexivity.
Qed.

(** A NaN in either sample makes the result NaN ([nan_policy="propagate"]). *)
Lemma spearmanr_nan (rank_corr : list Qc → list Qc → FloatR * FloatR)
    (xs ys : list Float) :
  length xs = length ys → NaN ∈ xs ∨ NaN ∈ ys →
  spearmanr rank_corr (NumCol xs) (NumCol ys) = Ok (None, None).
Proof.
  intros Hlen Hnan. unfold spearmanr. simpl.
  rewrite decide_False by (by intros []).
  case_decide; [reflexivity|].
  assert (has_nan xs || has_nan ys = true) as ->; [|reflexivity].
  unfold has_nan. apply orb_true_iff.
  destruct Hnan as [H1%dropna_nan_length|H1%dropna_nan_length]; [left|right];
    apply bool_decide_eq_true; lia.
Qed.

Lemma two_days_loaded :
  load_data (boot (Ok two_days)) =
    (Ok two_days_out, mkSession (Ok two_days) 1 [] ∅).
Proof. apply load_data_Ok. exists two_days. split; [done|]. split; [|done].
  apply create_averages_Ok. eexists _, _, _, _. repeat split; reflexivity. Qed.

Lemma two_days_daily :
  mean_daily two_days_out =
    Ok (daily_table [0; 86400]%Z
          (per_second (Qn <$> [60; 120]%Z))
          (per_second (Qn <$> [60; 60]%Z)) [Qn 1; Qfrac 1 2]).
Proof.
  destruct (averaged_rates two_days (Qn <$> [60; 120]%Z)
              (Qn <$> [60; 60]%Z) (Qn <$> [0; 60]%Z)
              [Qn 1; Qfrac 1 2]) as (H1 & H2 & _).
  apply mean_daily_Ok; try done.
  all: unfold two_days_out; rewrite averaged_raw by in_list; reflexivity.
Qed.

(** C5.  The script computes two rank correlations, daily mean total rate
    against daily mean success rate and against daily mean success ratio;
    both calls return a pair (they do not raise).  With fewer than two days
    on which both values are defined, and whenever a daily value is
    undefined, the pair is (NaN, NaN); with at least two days and every
    daily value defined it is the coefficient and p-value of the two
    samples of daily means. *)
Theorem correlations_spec (rank_corr : list Qc → list Qc → FloatR * FloatR)
    (df out md : DataFrame) (s' : Session) :
  load_data (boot (Ok df)) = (Ok out, s') →
  mean_daily out = Ok md →
  ∃ tps suc rate t r,
    columns md !! "Mean TPS" = Some (NumCol tps) ∧
    columns md !! "Mean Successful TPS" = Some (NumCol suc) ∧
    columns md !! "Mean Success Rate" = Some (NumCol rate) ∧
    length suc = length tps ∧
    length rate = length tps ∧
    spearmanr rank_corr (NumCol tps) (NumCol suc) = Ok t ∧
    spearmanr rank_corr (NumCol tps) (NumCol rate) = Ok r ∧
    correlations rank_corr md = Ok (t, r) ∧
    ((valid_pairs tps suc < 2)%nat → t = (None, None)) ∧
    ((valid_pairs tps rate < 2)%nat → r = (None, None)) ∧
    (NaN ∈ tps ∨ NaN ∈ suc → t = (None, None)) ∧
    (NaN ∈ tps ∨ NaN ∈ rate → r = (None, None)) ∧
    ((2 ≤ length tps)%nat → NaN ∉ tps → NaN ∉ suc →
     t = rank_corr (dropna tps) (dropna suc)) ∧
    ((2 ≤ length tps)%nat → NaN ∉ tps → NaN ∉ rate →
     r = rank_corr (dropna tps) (dropna rate)).
Proof.
  intros Hload Hmd.
  destruct (mean_daily_inv _ _ Hmd) as (ts & Hts).
  pose proof Hload as (df' & [= <-] & (tx & su & fa & sr & _ & _ & _ & Hsr & ->)%create_averages_Ok & _)%load_data_Ok.
  destruct (averaged_rates df tx su fa sr) as (H1 & H2 & _).
  assert (columns (averaged df tx su fa sr) !! "SUCCESS_RATE" = Some (NumCol sr))
    as H3 by (rewrite averaged_raw by in_list; done).
  rewrite (mean_daily_Ok _ ts _ _ _ Hts H1 H2 H3) in Hmd. injection Hmd as <-.
  destruct (daily_table_columns ts (per_second tx) (per_second su) sr)
    as (_ & _ & Ha & Hb & Hc).
  assert (length (resample_mean_col ts (per_second su)) =
          length (resample_mean_col ts (per_second tx))) as Ls
    by (by rewrite !resample_mean_col_length).
  assert (length (resample_mean_col ts sr) =
          length (resample_mean_col ts (per_second tx))) as Lr
    by (by rewrite !resample_mean_col_length).
  destruct (spearmanr_total rank_corr (resample_mean_col ts (per_second tx))
              (resample_mean_col ts (per_second su))) as (t & Ht & Htn);
    [done|].
  destruct (spearmanr_total rank_corr (resample_mean_col ts (per_second tx))
              (resample_mean_col ts sr)) as (r & Hr & Hrn);
    [done|].
  eexists _, _, _, t, r.
  split; [exact Ha|]. split; [exact Hb|]. split; [exact Hc|].
  split; [exact Ls|]. split; [exact Lr|].
  split; [exact Ht|]. split; [exact Hr|]. split.
  { unfold correlations, getitem. rewrite Ha, Hb, Hc. simpl.
    rewrite Ht. simpl. rewrite Hr. reflexivity. }
  split; [exact Htn|]. split; [exact Hrn|].
  split.
  { intros Hnan. rewrite spearmanr_nan in Ht by done. by injection Ht. }
  split.
  { intros Hnan. rewrite spearmanr_nan in Hr by done. by injection Hr. }
  split.
  - intros Hn Hx Hy. rewrite spearmanr_complete in Ht by done. by injection Ht.
  - intros Hn Hx Hy. rewrite spearmanr_complete in Hr by done. by injection Hr.
Qed.

Lemma correlations_spec_witness :
  correlations (λ _ _, (Some 1%R, Some 0%R))
    (daily_table [0; 60; 120]%Z
       (per_second (Qn <$> [60; 120; 0]%Z))
       (per_second (Qn <$> [60; 60; 0]%Z)) [Qn 1; Qfrac 1 2; NaN]) =
    Ok ((None, None), (None, None)) ∧
  let tps := resample_mean_col [0; 86400]%Z (per_second (Qn <$> [60; 120]%Z)) in
  let suc := resample_mean_col [0; 86400]%Z (per_second (Qn <$> [60; 60]%Z)) in
  let rate := resample_mean_col [0; 86400]%Z [Qn 1; Qfrac 1 2] in
  length (dropna tps) = 2%nat ∧
  correlations sums_kernel
    (daily_table [0; 86400]%Z
       (per_second (Qn <$> [60; 120]%Z))
       (per_second (Qn <$> [60; 60]%Z)) [Qn 1; Qfrac 1 2]) =
    Ok (sums_kernel (dropna tps) (dropna suc),
        sums_kernel (dropna tps) (dropna rate)).
Proof.
  split.
  - destruct (correlations_spec (λ _ _, (Some 1%R, Some 0%R))
                minutes3 minutes3_out _ _ minutes3_loaded minutes3_daily)
      as (tps & suc & rate & t & r & Ha & Hb & Hc & _ & _ & _ & _ & H & Ht & Hr
          & _).
    destruct (daily_table_columns [0; 60; 120]%Z
                (per_second (Qn <$> [60; 120; 0]%Z))
                (per_second (Qn <$> [60; 60; 0]%Z)) [Qn 1; Qfrac 1 2; NaN])
      as (_ & _ & Ha' & Hb' & Hc').
    rewrite Ha' in Ha. rewrite Hb' in Hb. rewrite Hc' in Hc.
    injection Ha as <-. injection Hb as <-. injection Hc as <-.
    rewrite H, Ht, Hr; [reflexivity | vm_compute; lia | vm_compute; lia].
  - intros tps0 suc0 rate0.
    destruct (correlations_spec sums_kernel
                two_days two_days_out _ _ two_days_loaded two_days_daily)
      as (tps & suc & rate & t & r & Ha & Hb & Hc & _ & _ & _ & _ & H & _ & _
          & _ & _ & Ht & Hr).
    destruct (daily_table_columns [0; 86400]%Z
                (per_second (Qn <$> [60; 120]%Z))
                (per_second (Qn <$> [60; 60]%Z)) [Qn 1; Qfrac 1 2])
      as (_ & _ & Ha' & Hb' & Hc').
    rewrite Ha' in Ha. rewrite Hb' in Hb. rewrite Hc' in Hc.
    injection Ha as <-. injection Hb as <-. injection Hc as <-.
    split; [vm_compute; reflexivity|].
    rewrite H, Ht, Hr; [reflexivity|..].
    + vm_compute. lia.
    + by_evaluation.
    + by_evaluation.
    + vm_compute. lia.
    + by_evaluation.
    + by_evaluation.
Defined.

(** ** When [load_data] fails *)

Lemma column_problem_None (e : Exn) (df : DataFrame) (k : string) :
  column_problem e df k = None ↔ ∃ xs, columns df !! k = Some (NumCol xs).
Proof.
  unfold column_problem. destruct (columns df !! k) as [[xs|ts]|]; split;
    try discriminate; try (by intros (? & [=])); eauto.
Qed.

Lemma per_second_body_Raise (df : DataFrame) (i : string) (e : Exn) :
  column_problem TypeError df i = Some e → per_second_body df i = Raise e.
Proof.
  unfold column_problem, per_second_body, getitem.
  destruct (columns df !! i) as [[xs|ts]|]; simpl; congruence.
Qed.

Lemma rolling_body_Raise (df : DataFrame) (i : string) (e : Exn) :
  column_problem DataError df i = Some e → rolling_body df i = Raise e.
Proof.
  unfold column_problem, rolling_body, rolling_line, getitem.
  destruct (columns df !! i) as [[xs|ts]|]; simpl; congruence.
Qed.

Lemma per_second_body_step (df : DataFrame) (i : string) (xs : list Float) :
  columns df !! i = Some (NumCol xs) →
  per_second_body df i =
    Ok (setitem df (i +:+ "_per_second") (NumCol (per_second xs))).
Proof. intros H. apply per_second_body_Ok. by exists xs. Qed.

Lemma rolling_body_step (df : DataFrame) (i : string) (xs : list Float) :
  columns df !! i = Some (NumCol xs) →
  rolling_body df i = Ok (with_rolling i xs df).
Proof. intros H. apply rolling_body_Ok. by exists xs. Qed.

Lemma create_averages_problem (df : DataFrame) :
  create_averages df =
    match load_problem df with
    | Some e => Raise e
    | None =>
        match columns df !! "TX_COUNT", columns df !! "SUCCESS",
              columns df !! "FAILS", columns df !! "SUCCESS_RATE" with
        | Some (NumCol tx), Some (NumCol su), Some (NumCol fa),
          Some (NumCol sr) => Ok (averaged df tx su fa sr)
        | _, _, _, _ => Raise TypeError
        end
    end.
Proof.
  unfold load_problem, needed_columns. cbn [foldr fst snd].
  destruct (column_problem TypeError df "TX_COUNT") as [e|] eqn:Htx.
  { unfold create_averages, rate_columns. cbn [for_each].
    by rewrite (per_second_body_Raise _ _ _ Htx). }
  apply column_problem_None in Htx as [tx Htx].
  destruct (column_problem TypeError df "SUCCESS") as [e|] eqn:Hsu.
  { unfold create_averages, rate_columns. cbn [for_each].
    rewrite (per_second_body_step _ _ tx) by done. cbn [mbind result_bind].
    rewrite (per_second_body_Raise _ _ e); [done|].
    unfold column_problem in *. cbn [columns setitem String.append].
    by rewrite lookup_insert_ne by discriminate. }
  apply column_problem_None in Hsu as [su Hsu].
  destruct (column_problem TypeError df "FAILS") as [e|] eqn:Hfa.
  { unfold create_averages, rate_columns. cbn [for_each].
    rewrite (per_second_body_step _ _ tx) by done. cbn [mbind result_bind].
    rewrite (per_second_body_step _ _ su) by (frame_lookup; done).
    cbn [mbind result_bind]. rewrite (per_second_body_Raise _ _ e); [done|].
    unfold column_problem in *. frame_lookup. exact Hfa. }
  apply column_problem_None in Hfa as [fa Hfa].
  destruct (column_problem DataError df "SUCCESS_RATE") as [e|] eqn:Hsr.
  - unfold create_averages, rate_columns, tracked_columns. cbn [for_each].
    rewrite (per_second_body_step _ _ tx) by done. cbn [mbind result_bind].
    rewrite (per_second_body_step _ _ su) by (frame_lookup; done).
    cbn [mbind result_bind].
    rewrite (per_second_body_step _ _ fa) by (frame_lookup; done).
    cbn [mbind result_bind].
    rewrite (rolling_body_step _ _ (per_second tx)) by (frame_lookup; done).
    cbn [mbind result_bind].
    rewrite (rolling_body_step _ _ (per_second su)) by (frame_lookup; done).
    cbn [mbind result_bind]. rewrite (rolling_body_Raise _ _ e); [done|].
    unfold column_problem in *. frame_lookup. exact Hsr.
  - apply column_problem_None in Hsr as [sr Hsr].
    rewrite Htx, Hsu, Hfa, Hsr. apply create_averages_Ok.
    by exists tx, su, fa, sr.
Qed.

(** The body of [load_data] succeeds exactly when the fetch succeeds and
    the four columns it reads are numeric. *)
Lemma load_data_boot_Ok (net : result DataFrame) (out : DataFrame)
    (s' : Session) :
  load_data (boot net) = (Ok out, s') ↔
  ∃ df tx su fa sr,
    net = Ok df ∧
    columns df !! "TX_COUNT" = Some (NumCol tx) ∧
    columns df !! "SUCCESS" = Some (NumCol su) ∧
    columns df !! "FAILS" = Some (NumCol fa) ∧
    columns df !! "SUCCESS_RATE" = Some (NumCol sr) ∧
    out = averaged df tx su fa sr ∧
    s' = mkSession net 1 [] ∅.
Proof.
  rewrite load_data_Ok. split.
  - intros (df & Hnet & (tx & su & fa & sr & H)%create_averages_Ok & ->).
    simpl in Hnet. destruct H as (H1 & H2 & H3 & H4 & ->).
    by exists df, tx, su, fa, sr.
  - intros (df & tx & su & fa & sr & -> & H1 & H2 & H3 & H4 & -> & ->).
    exists df. split; [done|]. split; [|done].
    apply create_averages_Ok. by exists tx, su, fa, sr.
Qed.

(** X2.  When one of the columns [load_data] reads is missing or holds no
    numbers, [load_data] raises for the first such column in the order
    TX_COUNT, SUCCESS, FAILS, SUCCESS_RATE: [KeyError] naming it when it is
    missing; for a column of timestamps, [TypeError] from the division of a
    count column and pandas' [DataError] from the rolling mean of the
    success ratio.  The script ends with that exception, after one request
    and before anything is rendered. *)
Theorem load_failure_stops_script
    (rank_corr : list Qc → list Qc → FloatR * FloatR)
    (df : DataFrame) (e : Exn) :
  load_problem df = Some e →
  create_averages df = Raise e ∧
  load_data (boot (Ok df)) = (Raise e, mkSession (Ok df) 1 [] ∅) ∧
  main rank_corr (boot (Ok df)) = (Raise e, mkSession (Ok df) 1 [] ∅).
Proof.
  intros He. pose proof (create_averages_problem df) as H. rewrite He in H.
  split; [done|].
  assert (load_data (boot (Ok df)) = (Raise e, mkSession (Ok df) 1 [] ∅)) as Hl.
  { unfold load_data, mbind, app_bind, pd_read_json, lift. simpl. by rewrite H. }
  split; [done|]. unfold main, mbind at 1, app_bind. by rewrite Hl.
Qed.

Lemma load_failure_stops_script_witness :
  main (λ _ _, (None, None)) (boot (Ok only_tx_count)) =
    (Raise (KeyError "SUCCESS"), mkSession (Ok only_tx_count) 1 [] ∅) ∧
  main (λ _ _, (None, None)) (boot (Ok dated_ratio)) =
    (Raise DataError, mkSession (Ok dated_ratio) 1 [] ∅).
Proof.
  split.
  - apply (load_failure_stops_script (λ _ _, (None, None)) only_tx_count
             (KeyError "SUCCESS")).
    reflexivity.
  - apply (load_failure_stops_script (λ _ _, (None, None)) dated_ratio
             DataError).
    reflexivity.
Defined.

(** ** Requests *)

Lemma offline_bind {A B : Type} (c : App A) (f : A → App B) :
  offline c → (∀ a, offline (f a)) → offline (c ≫= f).
Proof.
  intros Hc Hf s r s'. unfold mbind, app_bind.
  destruct (c s) as [[a|e] s1] eqn:Hcs; intros H.
  - destruct (Hf a _ _ _ H) as [-> ->]. exact (Hc _ _ _ Hcs).
  - injection H as <- <-. exact (Hc _ _ _ Hcs).
Qed.

Lemma offline_lift {A : Type} (r : result A) : offline (lift r).
Proof. by intros s r' s' [= <- <-]. Qed.

Lemma offline_st (w : Widget) : offline (st w).
Proof. by intros s r' s' [= <- <-]. Qed.

Lemma offline_var (y : string) : offline (var y).
Proof. by intros s r' s' [= <- <-]. Qed.

Lemma offline_assign (y : string) (d : DataFrame) : offline (assign y d).
Proof. by intros s r' s' [= <- <-]. Qed.

Create HintDb offline.
#[local] Hint Resolve offline_lift offline_st offline_var offline_assign
  : offline.
#[local] Hint Extern 2 (offline (_ ≫= _)) =>
  apply offline_bind; [|intros] : offline.

Lemma line_chart_offline (cols : list string) (names : list (string * string)) :
  offline (line_chart cols names).
Proof. unfold line_chart. auto 30 with offline. Qed.

Lemma page_offline (rank_corr : list Qc → list Qc → FloatR * FloatR) :
  offline (page rank_corr).
Proof.
  unfold page.
  repeat first
    [ apply line_chart_offline
    | apply offline_bind; [|intros]
    | solve [auto with offline] ].
Qed.

(** ** Runs and the cache *)

Lemma load_data_boot (net : result DataFrame) :
  load_data (boot net) = (net ≫= create_averages, mkSession net 1 [] ∅).
Proof. by destruct net. Qed.

(** X1.  The call [load_data()] of line 32 succeeds exactly when the cache
    holds a frame, which it then returns without a request, or the cache is
    empty, the fetch succeeds and the four columns read are numeric; it then
    returns the fetched frame with the 23 derived columns, after one
    request, and leaves it in the cache.  Nothing is rendered or bound
    either way. *)
Theorem cached_load_succeeds_iff (cache cache' : Cache)
    (net : result DataFrame) (out : DataFrame) (s' : Session) :
  st_cache load_data cache (boot net) = ((Ok out, s'), cache') ↔
  (cache = Some out ∧ s' = boot net ∧ cache' = Some out) ∨
  (cache = None ∧ cache' = Some out ∧
   ∃ df tx su fa sr,
     net = Ok df ∧
     columns df !! "TX_COUNT" = Some (NumCol tx) ∧
     columns df !! "SUCCESS" = Some (NumCol su) ∧
     columns df !! "FAILS" = Some (NumCol fa) ∧
     columns df !! "SUCCESS_RATE" = Some (NumCol sr) ∧
     out = averaged df tx su fa sr ∧
     s' = mkSession net 1 [] ∅).
Proof.
  destruct cache as [d|]; unfold st_cache.
  - split.
    + intros [= <- <- <-]. by left.
    + intros [(H1 & -> & ->)|([=] & _)]. by injection H1 as ->.
  - destruct (load_data (boot net)) as [[d|e] s1] eqn:E; split.
    + intros [= <- <- <-]. right. split; [done|]. split; [done|].
      by apply load_data_boot_Ok.
    + intros [([=] & _)|(_ & -> & H)].
      apply load_data_boot_Ok in H. rewrite E in H. by injection H as -> ->.
    + intros [=].
    + intros [([=] & _)|(_ & _ & H)].
      apply load_data_boot_Ok in H. rewrite E in H. discriminate H.
Qed.

(** X3.  A run of the script sends one request when the cache is empty and
    none when it holds a frame, whatever the server answers and however the
    run ends.  It leaves the cache as found when it held a frame; from an
    empty cache it leaves the loaded frame if [load_data] returned, even
    when the script raises later, and nothing if [load_data] raised.  A run
    from an empty cache is [main]. *)
Theorem requests_per_run
    (rank_corr : list Qc → list Qc → FloatR * FloatR)
    (cache : Cache) (net : result DataFrame) :
  fetches (run rank_corr cache net).1.2 =
    match cache with Some _ => 0%nat | None => 1%nat end ∧
  network (run rank_corr cache net).1.2 = net ∧
  (run rank_corr cache net).2 =
    match cache with
    | Some d => Some d
    | None =>
        match net ≫= create_averages with
        | Ok out => Some out
        | Raise _ => None
        end
    end ∧
  (run rank_corr None net).1 = main rank_corr (boot net).
Proof.
  assert (∀ d, offline (assign "df" d ≫= λ _, page rank_corr)) as Hoff.
  { intros d. apply offline_bind; [apply offline_assign|].
    intros _. apply page_offline. }
  split; [|split; [|split]].
  - unfold run, st_cache. destruct cache as [d|].
    + destruct ((assign "df" d ≫= λ _, page rank_corr) (boot net))
        as [r s] eqn:Hm.
      by apply (Hoff d) in Hm as [H1 _].
    + rewrite load_data_boot.
      destruct (net ≫= create_averages) as [out|e]; [|reflexivity].
      destruct ((assign "df" out ≫= λ _, page rank_corr)
                  (mkSession net 1 [] ∅)) as [r s] eqn:Hm.
      by apply (Hoff out) in Hm as [H1 _].
  - unfold run, st_cache. destruct cache as [d|].
    + destruct ((assign "df" d ≫= λ _, page rank_corr) (boot net))
        as [r s] eqn:Hm.
      by apply (Hoff d) in Hm as [_ H2].
    + rewrite load_data_boot.
      destruct (net ≫= create_averages) as [out|e]; [|reflexivity].
      destruct ((assign "df" out ≫= λ _, page rank_corr)
                  (mkSession net 1 [] ∅)) as [r s] eqn:Hm.
      by apply (Hoff out) in Hm as [_ H2].
  - unfold run, st_cache. destruct cache as [d|]; [reflexivity|].
    rewrite load_data_boot. by destruct (net ≫= create_averages).
  - unfold run, st_cache, main, mbind at 2, app_bind.
    rewrite load_data_boot. by destruct (net ≫= create_averages).
Qed.

(** ** A complete run *)

Lemma runs_bind {A B : Type} (c : App A) (f : A → App B)
    (s s1 s2 : Session) (a : A) (b : B) :
  runs c s a s1 → runs (f a) s1 b s2 → runs (c ≫= f) s b s2.
Proof. unfold runs, mbind, app_bind. by intros -> ->. Qed.

Lemma raises_bind {A B : Type} (c : App A) (f : A → App B)
    (s s1 : Session) (e : Exn) :
  c s = (Raise e, s1) → (c ≫= f) s = (Raise e, s1).
Proof. unfold mbind, app_bind. by intros ->. Qed.

Lemma runs_then_raises {A B : Type} (c : App A) (f : A → App B)
    (s s1 s2 : Session) (a : A) (e : Exn) :
  runs c s a s1 → f a s1 = (Raise e, s2) → (c ≫= f) s = (Raise e, s2).
Proof. unfold runs, mbind, app_bind. by intros -> ->. Qed.

Lemma runs_st (w : Widget) (s : Session) :
  runs (st w) s () (mkSession (network s) (fetches s) (screen s ++ [w]) (frames s)).
Proof. reflexivity. Qed.

Lemma runs_assign (x : string) (d : DataFrame) (s : Session) :
  runs (assign x d) s ()
    (mkSession (network s) (fetches s) (screen s) (<[x := d]> (frames s))).
Proof. reflexivity. Qed.

Lemma runs_var (x : string) (d : DataFrame) (s : Session) :
  frames s !! x = Some d → runs (var x) s d s.
Proof. intros H. unfold runs, var. by rewrite H. Qed.

Lemma runs_lift {A : Type} (r : result A) (a : A) (s : Session) :
  r = Ok a → runs (lift r) s a s.
Proof. by intros ->. Qed.

(** Reading a script variable after some assignments. *)
Ltac bound_var :=
  cbn [frames network fetches screen];
  rewrite ?lookup_insert_ne by discriminate;
  first [apply lookup_insert_eq | eassumption].

(** One chart: the selected columns under their display names, indexed by
    the timestamps; [chart_data] is left bound to it. *)
Lemma line_chart_runs (cols : list string) (names : list (string * string))
    (s : Session) (df cd c : DataFrame) (dt : Column) :
  frames s !! "df" = Some df →
  select df cols = Ok cd →
  getattr df "DATETIME" = Ok dt →
  set_index (rename names cd) dt = Ok c →
  runs (line_chart cols names) s ()
    (mkSession (network s) (fetches s) (screen s ++ [LineChart c])
       (<["chart_data" := c]> (frames s))).
Proof.
  intros Hdf Hsel Hdt Hidx. unfold line_chart.
  eapply runs_bind; [by apply runs_var|].
  eapply runs_bind; [by apply runs_lift|].
  eapply runs_bind; [apply runs_assign|].
  eapply runs_bind; [apply runs_var; bound_var|].
  eapply runs_bind; [apply runs_assign|].
  eapply runs_bind; [apply runs_var; bound_var|].
  eapply runs_bind; [by apply runs_lift|].
  eapply runs_bind; [apply runs_var; bound_var|].
  eapply runs_bind; [by apply runs_lift|].
  eapply runs_bind; [apply runs_assign|].
  eapply runs_bind; [apply runs_var; bound_var|].
  unfold runs, st. cbn [frames network fetches screen].
  by rewrite !insert_insert_eq.
Qed.

Lemma rename_tps_chart (i a b c d : Column) :
  rename tps_chart_names
    (mkFrame i
       (<["TX_COUNT_per_second_hourly_avg" := a]>
        (<["TX_COUNT_per_second_daily_avg" := b]>
         (<["SUCCESS_per_second_hourly_avg" := c]>
          (<["SUCCESS_per_second_daily_avg" := d]> ∅))))) =
  mkFrame i
    (<["Hourly Average, TPS" := a]>
     (<["Daily Average, TPS" := b]>
      (<["Hourly Average, Successful TPS" := c]>
       (<["Daily Average, Successful TPS" := d]> ∅)))).
Proof. vm_compute. reflexivity. Qed.

Lemma rename_rate_chart (i a b c : Column) :
  rename rate_chart_names
    (mkFrame i
       (<["SUCCESS_RATE" := a]>
        (<["SUCCESS_RATE_hourly_avg" := b]>
         (<["SUCCESS_RATE_daily_avg" := c]> ∅)))) =
  mkFrame i
    (<["Success Rate" := a]>
     (<["Hourly Average, Success Rate" := b]>
      (<["Daily Average, Success Rate" := c]> ∅))).
Proof. vm_compute. reflexivity. Qed.

Lemma tps_chart_Ok (df : DataFrame) (tx su fa sr : list Float) (ts : list Z) :
  length ts = len df →
  ∃ cd,
    select (averaged df tx su fa sr) tps_chart_columns = Ok cd ∧
    set_index (rename tps_chart_names cd) (TimeCol ts) = Ok (tps_chart ts tx su).
Proof.
  intros Hlen. eexists. split.
  - unfold select, tps_chart_columns, select_columns, getitem.
    frame_lookup. reflexivity.
  - rewrite rename_tps_chart. unfold set_index, len. cbn [index col_length].
    rewrite decide_True by done. reflexivity.
Qed.

Lemma rate_chart_Ok (df : DataFrame) (tx su fa sr : list Float) (ts : list Z) :
  columns df !! "SUCCESS_RATE" = Some (NumCol sr) →
  length ts = len df →
  ∃ cd,
    select (averaged df tx su fa sr) rate_chart_columns = Ok cd ∧
    set_index (rename rate_chart_names cd) (TimeCol ts) = Ok (rate_chart ts sr).
Proof.
  intros Hsr Hlen. eexists. split.
  - unfold select, rate_chart_columns, select_columns, getitem.
    frame_lookup. rewrite Hsr. reflexivity.
  - rewrite rename_rate_chart. unfold set_index, len. cbn [index col_length].
    rewrite decide_True by done. reflexivity.
Qed.

Lemma average_tps_Ok (df : DataFrame) (tx su fa sr : list Float) :
  columns df !! "SUCCESS_RATE" = Some (NumCol sr) →
  ∃ vals, average_tps (averaged df tx su fa sr) = Ok vals ∧ length vals = 6%nat.
Proof.
  intros Hsr. destruct (averaged_rates df tx su fa sr) as (H1 & H2 & _).
  assert (columns (averaged df tx su fa sr) !! "SUCCESS_RATE" = Some (NumCol sr))
    as H3 by (rewrite averaged_raw by in_list; done).
  unfold average_tps.
  rewrite (summary_mean_col _ _ _ H1), (summary_sem_col _ _ _ H1),
    (summary_mean_col _ _ _ H2), (summary_sem_col _ _ _ H2),
    (summary_mean_col _ _ _ H3), (summary_sem_col _ _ _ H3).
  eexists. split; reflexivity.
Qed.

Lemma success_range_Ok (df : DataFrame) (tx su fa sr : list Float) :
  columns df !! "SUCCESS_RATE" = Some (NumCol sr) →
  success_range (averaged df tx su fa sr) =
    Ok [scale 100 (to_R (series_min sr)); scale 100 (to_R (series_max sr));
        scale 100 (to_R (series_min (rolling_mean 60 sr)))].
Proof.
  intros Hsr.
  assert (columns (averaged df tx su fa sr) !! "SUCCESS_RATE" = Some (NumCol sr))
    as H3 by (rewrite averaged_raw by in_list; done).
  assert (columns (averaged df tx su fa sr) !! "SUCCESS_RATE_hourly_avg" =
          Some (NumCol (rolling_mean 60 sr))) as H4
    by (frame_lookup; reflexivity).
  unfold success_range, getitem. rewrite H3, H4. reflexivity.
Qed.

Lemma correlations_daily_table
    (rank_corr : list Qc → list Qc → FloatR * FloatR)
    (ts : list Z) (tps suc rate : list Float) :
  ∃ c, correlations rank_corr (daily_table ts tps suc rate) = Ok c.
Proof.
  destruct (daily_table_columns ts tps suc rate) as (_ & _ & Ha & Hb & Hc).
  destruct (spearmanr_total rank_corr (resample_mean_col ts tps)
              (resample_mean_col ts suc)) as (t & Ht & _);
    [by rewrite !resample_mean_col_length|].
  destruct (spearmanr_total rank_corr (resample_mean_col ts tps)
              (resample_mean_col ts rate)) as (r & Hr & _);
    [by rewrite !resample_mean_col_length|].
  exists (t, r). unfold correlations, getitem. rewrite Ha, Hb, Hc. simpl.
  rewrite Ht. simpl. by rewrite Hr.
Qed.

Lemma daily_text_Ok (ts : list Z) (tps suc rate : list Float)
    (c : (FloatR * FloatR) * (FloatR * FloatR)) :
  ∃ vals, daily_text (daily_table ts tps suc rate) c = Ok vals ∧
          length vals = 7%nat.
Proof.
  destruct (daily_table_columns ts tps suc rate) as (_ & _ & Ha & _ & Hc).
  unfold daily_text.
  rewrite (summary_mean_col _ _ _ Hc), (summary_sem_col _ _ _ Hc),
    (summary_mean_col _ _ _ Ha).
  eexists. split; reflexivity.
Qed.

Ltac run_step tac :=
  eapply runs_bind; [tac|]; cbn [network fetches screen frames].

(** X4.  On a fetched table whose four data columns are numeric and whose
    DATETIME column holds one timestamp per row, the script runs to the end
    and renders exactly thirteen widgets, in this order: title, caption,
    sub-header, the summary text, the rate chart, the range text, the
    success-ratio chart, sub-header, the daily text, the daily chart,
    sub-header, the methods text and the table of the loaded frame. *)
Theorem script_completes (rank_corr : list Qc → list Qc → FloatR * FloatR)
    (df : DataFrame) (tx su fa sr : list Float) (ts : list Z) :
  columns df !! "TX_COUNT" = Some (NumCol tx) →
  columns df !! "SUCCESS" = Some (NumCol su) →
  columns df !! "FAILS" = Some (NumCol fa) →
  columns df !! "SUCCESS_RATE" = Some (NumCol sr) →
  columns df !! "DATETIME" = Some (TimeCol ts) →
  length ts = len df →
  let out := averaged df tx su fa sr in
  let md := daily_table ts (per_second tx) (per_second su) sr in
  ∃ v1 v2 v3 c s,
    average_tps out = Ok v1 ∧
    success_range out = Ok v2 ∧
    mean_daily out = Ok md ∧
    correlations rank_corr md = Ok c ∧
    daily_text md c = Ok v3 ∧
    main rank_corr (boot (Ok df)) = (Ok (), s) ∧
    screen s =
      [Title "Solana TPS"; Caption; Subheader "Average TPS"; Text v1;
       LineChart (tps_chart ts tx su); Text v2;
       LineChart (rate_chart ts sr); Subheader "Daily TPS"; Text v3;
       AltairChart md; Subheader "Methods"; Text []; Table out] ∧
    frames s !! "df" = Some out ∧
    frames s !! "mean_daily" = Some md.
Proof.
  intros Htx Hsu Hfa Hsr Hts Hlen out md.
  destruct (average_tps_Ok df tx su fa sr Hsr) as (v1 & Hv1 & _).
  pose proof (success_range_Ok df tx su fa sr Hsr) as Hv2.
  destruct (tps_chart_Ok df tx su fa sr ts Hlen) as (cd1 & Hsel1 & Hidx1).
  destruct (rate_chart_Ok df tx su fa sr ts Hsr Hlen) as (cd2 & Hsel2 & Hidx2).
  destruct (averaged_rates df tx su fa sr) as (H1 & H2 & _).
  assert (columns out !! "SUCCESS_RATE" = Some (NumCol sr)) as H3
    by (unfold out; rewrite averaged_raw by in_list; done).
  assert (columns out !! "DATETIME" = Some (TimeCol ts)) as H4
    by (unfold out; rewrite averaged_raw by in_list; done).
  assert (getattr out "DATETIME" = Ok (TimeCol ts)) as Hdt
    by (unfold getattr; by rewrite H4).
  pose proof (mean_daily_Ok out ts _ _ _ H4 H1 H2 H3) as Hmd. fold md in Hmd.
  destruct (correlations_daily_table rank_corr ts (per_second tx)
              (per_second su) sr) as (c & Hc). fold md in Hc.
  destruct (daily_text_Ok ts (per_second tx) (per_second su) sr c)
    as (v3 & Hv3 & _). fold md in Hv3.
  assert (load_data (boot (Ok df)) = (Ok out, mkSession (Ok df) 1 [] ∅)) as Hl.
  { apply load_data_Ok. exists df. split; [done|]. split; [|done].
    apply create_averages_Ok. exists tx, su, fa, sr.
    exact (conj Htx (conj Hsu (conj Hfa (conj Hsr eq_refl)))). }
  fold out in Hv1, Hv2, Hsel1, Hsel2.
  clearbody out md. clear Htx Hsu Hfa Hsr Hts H1 H2 H3 H4.
  eexists v1, _, v3, c, _.
  split; [exact Hv1|]. split; [exact Hv2|]. split; [exact Hmd|].
  split; [exact Hc|]. split; [exact Hv3|]. split.
  - unfold main. run_step ltac:(exact Hl).
    run_step ltac:(apply runs_assign).
    unfold page.
    run_step ltac:(apply runs_st). run_step ltac:(apply runs_st).
    run_step ltac:(apply runs_st).
    run_step ltac:(apply runs_var; bound_var).
    run_step ltac:(apply runs_lift; exact Hv1).
    run_step ltac:(apply runs_st).
    run_step ltac:(eapply (line_chart_runs _ _ _ out);
                   [bound_var | exact Hsel1 | exact Hdt | exact Hidx1]).
    run_step ltac:(apply runs_var; bound_var).
    run_step ltac:(apply runs_lift; exact Hv2).
    run_step ltac:(apply runs_st).
    run_step ltac:(eapply (line_chart_runs _ _ _ out);
                   [bound_var | exact Hsel2 | exact Hdt | exact Hidx2]).
    run_step ltac:(apply runs_st).
    run_step ltac:(apply runs_var; bound_var).
    run_step ltac:(apply runs_lift; exact Hmd).
    run_step ltac:(apply runs_assign).
    run_step ltac:(apply runs_var; bound_var).
    run_step ltac:(apply runs_lift; exact Hc).
    run_step ltac:(apply runs_var; bound_var).
    run_step ltac:(apply runs_lift; exact Hv3).
    run_step ltac:(apply runs_st).
    run_step ltac:(apply runs_var; bound_var).
    run_step ltac:(apply runs_st).
    run_step ltac:(apply runs_st).
    run_step ltac:(apply runs_st).
    run_step ltac:(apply runs_var; bound_var).
    apply runs_st.
  - cbn [network fetches screen frames app].
    split; [reflexivity|]. split.
    + rewrite !lookup_insert_ne by discriminate. apply lookup_insert_eq.
    + apply lookup_insert_eq.
Qed.

Lemma minutes3_columns :
  columns minutes3 !! "TX_COUNT" = Some (NumCol (Qn <$> [60; 120; 0]%Z)) ∧
  columns minutes3 !! "SUCCESS" = Some (NumCol (Qn <$> [60; 60; 0]%Z)) ∧
  columns minutes3 !! "FAILS" = Some (NumCol (Qn <$> [0; 60; 0]%Z)) ∧
  columns minutes3 !! "SUCCESS_RATE" = Some (NumCol [Qn 1; Qfrac 1 2; NaN]) ∧
  columns minutes3 !! "DATETIME" = Some (TimeCol [0; 60; 120]%Z).
Proof. repeat split; vm_compute; reflexivity. Qed.

Lemma script_completes_witness :
  ∃ s, main (λ _ _, (None, None)) (boot (Ok minutes3)) = (Ok (), s) ∧
       length (screen s) = 13%nat.
Proof.
  destruct minutes3_columns as (H1 & H2 & H3 & H4 & H5).
  destruct (script_completes (λ _ _, (None, None)) minutes3 _ _ _ _ _
              H1 H2 H3 H4 H5 eq_refl)
    as (v1 & v2 & v3 & c & s & _ & _ & _ & _ & _ & Hrun & Hscr & _).
  exists s. split; [exact Hrun|]. rewrite Hscr. reflexivity.
Defined.

Lemma line_chart_no_datetime (cols : list string)
    (names : list (string * string)) (s : Session) (df cd : DataFrame) (e : Exn) :
  frames s !! "df" = Some df →
  select df cols = Ok cd →
  getattr df "DATETIME" = Raise e →
  ∃ s', line_chart cols names s = (Raise e, s') ∧
        screen s' = screen s ∧ frames s' !! "df" = Some df.
Proof.
  intros Hdf Hsel Hdt. eexists. split.
  - unfold line_chart.
    eapply runs_then_raises; [by apply runs_var|].
    eapply runs_then_raises; [by apply runs_lift|].
    eapply runs_then_raises; [apply runs_assign|].
    eapply runs_then_raises; [apply runs_var; bound_var|].
    eapply runs_then_raises; [apply runs_assign|].
    eapply runs_then_raises; [apply runs_var; bound_var|].
    apply raises_bind. unfold lift. rewrite Hdt. reflexivity.
  - cbn [screen frames]. split; [reflexivity|].
    rewrite !lookup_insert_ne by discriminate. exact Hdf.
Qed.

Lemma tps_select_Ok (df : DataFrame) (tx su fa sr : list Float) :
  ∃ cd, select (averaged df tx su fa sr) tps_chart_columns = Ok cd.
Proof.
  eexists. unfold select, tps_chart_columns, select_columns, getitem.
  frame_lookup. reflexivity.
Qed.

(** X5.  A failure after loading is not clean: on a table with the four
    data columns but no DATETIME column the script raises at the first
    chart, after the title, the caption, the sub-header and the summary text
    have been rendered; [df] stays bound to the loaded frame. *)
Theorem script_stops_at_first_chart
    (rank_corr : list Qc → list Qc → FloatR * FloatR)
    (df : DataFrame) (tx su fa sr : list Float) :
  columns df !! "TX_COUNT" = Some (NumCol tx) →
  columns df !! "SUCCESS" = Some (NumCol su) →
  columns df !! "FAILS" = Some (NumCol fa) →
  columns df !! "SUCCESS_RATE" = Some (NumCol sr) →
  columns df !! "DATETIME" = None →
  let out := averaged df tx su fa sr in
  ∃ v1 e s,
    average_tps out = Ok v1 ∧
    main rank_corr (boot (Ok df)) = (Raise e, s) ∧
    screen s = [Title "Solana TPS"; Caption; Subheader "Average TPS"; Text v1] ∧
    frames s !! "df" = Some out.
Proof.
  intros Htx Hsu Hfa Hsr Hts out.
  destruct (average_tps_Ok df tx su fa sr Hsr) as (v1 & Hv1 & _).
  destruct (tps_select_Ok df tx su fa sr) as (cd1 & Hsel1).
  assert (getattr out "DATETIME" = Raise (AttributeError "DATETIME")) as Hdt.
  { unfold getattr, out. rewrite averaged_raw by in_list. by rewrite Hts. }
  assert (load_data (boot (Ok df)) = (Ok out, mkSession (Ok df) 1 [] ∅)) as Hl.
  { apply load_data_Ok. exists df. split; [done|]. split; [|done].
    apply create_averages_Ok. exists tx, su, fa, sr.
    exact (conj Htx (conj Hsu (conj Hfa (conj Hsr eq_refl)))). }
  fold out in Hv1, Hsel1. clearbody out. clear Htx Hsu Hfa Hsr Hts.
  destruct (line_chart_no_datetime tps_chart_columns tps_chart_names
              (mkSession (Ok df) 1
                 [Title "Solana TPS"; Caption; Subheader "Average TPS"; Text v1]
                 (<["df" := out]> ∅))
              out cd1 _ (lookup_insert_eq _ _ _) Hsel1 Hdt)
    as (s' & Hchart & Hscr & Hdf).
  exists v1, (AttributeError "DATETIME"), s'.
  split; [exact Hv1|]. split; [|split; [exact Hscr | exact Hdf]].
  unfold main.
  eapply runs_then_raises; [exact Hl|].
  eapply runs_then_raises; [apply runs_assign|].
  cbn [network fetches screen frames]. unfold page.
  eapply runs_then_raises; [apply runs_st|]. cbn [network fetches screen frames].
  eapply runs_then_raises; [apply runs_st|]. cbn [network fetches screen frames].
  eapply runs_then_raises; [apply runs_st|]. cbn [network fetches screen frames].
  eapply runs_then_raises; [apply runs_var; bound_var|].
  eapply runs_then_raises; [apply runs_lift; exact Hv1|].
  eapply runs_then_raises; [apply runs_st|]. cbn [network fetches screen frames app].
  apply raises_bind. exact Hchart.
Qed.

Lemma script_stops_at_first_chart_witness :
  ∃ e s, main (λ _ _, (None, None)) (boot (Ok undated)) = (Raise e, s) ∧
         length (screen s) = 4%nat.
Proof.
  destruct (script_stops_at_first_chart (λ _ _, (None, None)) undated
              [Qn 60] [Qn 60] [Qn 0] [Qn 1])
    as (v1 & e & s & _ & Hrun & Hscr & _); try (vm_compute; reflexivity).
  exists e, s. split; [exact Hrun|]. rewrite Hscr. reflexivity.
Defined.

(** ** When a rolling value is defined *)

Lemma window_elem_inv (w i : nat) (xs : list Float) (x : Float) :
  x ∈ window w i xs →
  ∃ j, (j ≤ i)%nat ∧ (i < j + w)%nat ∧ xs !! j = Some x.
Proof.
  unfold window. intros (k & Hk & Hlt)%elem_of_take.
  rewrite lookup_drop in Hk. exists (S i - w + k)%nat.
  split; [lia|]. split; [lia|done].
Qed.

(** A row of [rolling(w).mean()] is defined exactly when its window is full
    and holds no NaN. *)
Lemma rolling_defined_iff (w i : nat) (xs : list Float) :
  (0 < w)%nat → (i < length xs)%nat →
  (∃ v, rolling_mean w xs !! i = Some (Some v)) ↔
  (w - 1 ≤ i)%nat ∧
  ∀ j, (j ≤ i)%nat → (i < j + w)%nat → xs !! j ≠ Some NaN.
Proof.
  intros Hw Hi. split.
  - intros (v & Hv). split.
    + destruct (decide (w - 1 ≤ i)%nat) as [|Hn]; [done|].
      rewrite rolling_mean_warmup in Hv by lia. discriminate.
    + intros j Hji Hjw Hj.
      rewrite (rolling_mean_nan w i j xs) in Hv by done. discriminate.
  - intros [Hwi Hno]. rewrite rolling_mean_lookup by done.
    destruct (nan_or_full (window w i xs)) as [Hnan|Hfull].
    + apply window_elem_inv in Hnan as (j & Hji & Hjw & Hj).
      by destruct (Hno j Hji Hjw).
    + unfold roll_mean_at. rewrite Hfull, window_length by done.
      rewrite !bool_decide_eq_true_2 by lia. by eexists.
Qed.

(** X10.  A rolling average is defined exactly at the rows whose window is
    full and free of NaN; hence wherever a longer window gives a value, so
    does every shorter one: no row has a weekly average without having a
    daily, a 6-hour, an hourly and a 5-minute one. *)
Theorem rolling_defined_nested (df out : DataFrame) (s' : Session)
    (b s1 s2 : string) (w1 w2 : nat) :
  load_data (boot (Ok df)) = (Ok out, s') →
  b ∈ tracked_columns →
  (s1, w1) ∈ rolling_windows → (s2, w2) ∈ rolling_windows →
  ∃ xs ys1 ys2,
    columns out !! b = Some (NumCol xs) ∧
    columns out !! (b +:+ s1) = Some (NumCol ys1) ∧
    columns out !! (b +:+ s2) = Some (NumCol ys2) ∧
    (∀ i, (i < length xs)%nat →
       ((∃ v, ys1 !! i = Some (Some v)) ↔
        (w1 - 1 ≤ i)%nat ∧
        ∀ j, (j ≤ i)%nat → (i < j + w1)%nat → xs !! j ≠ Some NaN)) ∧
    ((w1 ≤ w2)%nat →
     ∀ i v2, ys2 !! i = Some (Some v2) → ∃ v1, ys1 !! i = Some (Some v1)).
Proof.
  intros (df' & [= <-] & (tx & su & fa & sr & _ & _ & _ & Hsr & ->)%create_averages_Ok & _)%load_data_Ok
         Hb H1 H2.
  destruct (averaged_rolling df tx su fa sr b s1 w1 Hsr Hb H1) as (xs & Hxs & Hy1).
  destruct (averaged_rolling df tx su fa sr b s2 w2 Hsr Hb H2) as (xs' & Hxs' & Hy2).
  rewrite Hxs in Hxs'. injection Hxs' as <-.
  pose proof (rolling_windows_positive _ _ H1) as Hp1.
  pose proof (rolling_windows_positive _ _ H2) as Hp2.
  exists xs, (rolling_mean w1 xs), (rolling_mean w2 xs).
  split; [exact Hxs|]. split; [exact Hy1|]. split; [exact Hy2|].
  split; [intros i Hi; by apply rolling_defined_iff|].
  intros Hle i v2 Hv2.
  assert (i < length xs)%nat as Hi.
  { rewrite <- (rolling_mean_length w2). by eapply lookup_lt_Some. }
  apply rolling_defined_iff; [done..|].
  destruct (proj1 (rolling_defined_iff w2 i xs Hp2 Hi)) as [Hwi Hno];
    [by exists v2|].
  split; [lia|]. intros j Hji Hjw. apply Hno; lia.
Qed.

Lemma hour_loaded :
  load_data (boot (Ok hour)) = (Ok hour_out, mkSession (Ok hour) 1 [] ∅).
Proof.
  apply load_data_Ok. exists hour. split; [done|]. split; [|done].
  apply create_averages_Ok. exists hour_tx, hour_su, hour_fa, hour_sr.
  repeat split; reflexivity.
Qed.

Lemma hour_ratio_columns :
  columns hour_out !! "SUCCESS_RATE" = Some (NumCol hour_sr) ∧
  columns hour_out !! "SUCCESS_RATE_5_min_avg" =
    Some (NumCol (rolling_mean 5 hour_sr)) ∧
  columns hour_out !! "SUCCESS_RATE_hourly_avg" =
    Some (NumCol (rolling_mean 60 hour_sr)).
Proof.
  unfold hour_out. generalize hour_tx hour_su hour_fa. intros tx su fa.
  split; [rewrite averaged_raw by in_list; reflexivity|].
  split; frame_lookup; reflexivity.
Qed.

(** On the 61 minutes of [hour], whose first success ratio is undefined:
    at the last row the hourly window is full and clean, so the hourly and
    the 5-minute averages are both defined; one row earlier the hourly
    window still reaches the undefined first row while the 5-minute one
    does not. *)
Lemma rolling_defined_nested_witness :
  ∃ xs ys1 ys2,
    columns hour_out !! "SUCCESS_RATE" = Some (NumCol xs) ∧
    columns hour_out !! "SUCCESS_RATE_5_min_avg" = Some (NumCol ys1) ∧
    columns hour_out !! "SUCCESS_RATE_hourly_avg" = Some (NumCol ys2) ∧
    length xs = 61%nat ∧
    (∃ v2, ys2 !! 60%nat = Some (Some v2)) ∧
    (∃ v1, ys1 !! 60%nat = Some (Some v1)) ∧
    ys2 !! 59%nat = Some NaN ∧
    (∃ v1, ys1 !! 59%nat = Some (Some v1)) ∧
    ys1 !! 3%nat = Some NaN.
Proof.
  destruct (rolling_defined_nested hour hour_out
              (mkSession (Ok hour) 1 [] ∅) "SUCCESS_RATE"
              "_5_min_avg" "_hourly_avg" 5 60)
    as (xs & ys1 & ys2 & Hxs & Hy1 & Hy2 & Hiff & Hnest).
  - exact hour_loaded.
  - unfold tracked_columns. in_list.
  - unfold rolling_windows. in_list.
  - unfold rolling_windows. in_list.
  - destruct hour_ratio_columns as (Kxs & Ky1 & Ky2).
    rewrite Kxs in Hxs. injection Hxs as <-.
    assert (Some (NumCol (rolling_mean 5 hour_sr)) = Some (NumCol ys1)) as E1
      by (rewrite <- Hy1; symmetry; exact Ky1).
    assert (Some (NumCol (rolling_mean 60 hour_sr)) = Some (NumCol ys2)) as E2
      by (rewrite <- Hy2; symmetry; exact Ky2).
    injection E1 as <-. injection E2 as <-.
    assert (∃ v2, rolling_mean 60 hour_sr !! 60%nat = Some (Some v2)) as Hlast.
    { eexists. vm_compute. reflexivity. }
    exists hour_sr, (rolling_mean 5 hour_sr), (rolling_mean 60 hour_sr).
    split; [exact Kxs|]. split; [exact Ky1|]. split; [exact Ky2|].
    split; [reflexivity|].
    split; [exact Hlast|].
    split.
    { destruct Hlast as (v2 & Hv2). apply (Hnest ltac:(lia) 60%nat v2 Hv2). }
    split; [by_evaluation|].
    split.
    + apply (Hiff 59%nat); [vm_compute; lia|].
      split; [lia|]. intros j Hj1 Hj2.
      assert (j = 55 ∨ j = 56 ∨ j = 57 ∨ j = 58 ∨ j = 59)%nat
        as [->|[->|[->|[->| ->]]]] by lia; discriminate.
    + destruct (rolling_mean 5 hour_sr !! 3%nat) as [[v|]|] eqn:E3.
      * exfalso.
        destruct (proj1 (Hiff 3%nat ltac:(vm_compute; lia)) (ex_intro _ v E3))
          as [Hw _].
        lia.
      * reflexivity.
      * exfalso. apply lookup_ge_None_1 in E3.
        rewrite rolling_mean_length in E3. vm_compute in E3. lia.
Defined.
